(** * gmaps/heatmap.py: heatmap layers, their validation and their bounds

    A shallow embedding of the two layer classes of [gmaps/heatmap.py]
    ([Heatmap], [WeightedHeatmap]) and of the options mixin they share,
    together with the part of [traitlets] the classes rely on: a trait
    assignment validates the value, runs the class's [@validate] hook,
    stores the value and, when the stored value differs from the previous
    one, calls the class's [@observe] hook.

    Python floats are modelled as exact rationals in lowest terms ([Qc]):
    the code only compares coordinates and selects among them, and on
    canonical rationals Python's [==] is Leibniz equality. NaN and the
    infinities are not modelled. An int offered to a [Float] trait is cast
    to a float first ([Float_cast]).  Python tuples of
    numbers are lists of numbers, so that [point[:2]], [row[0]] and
    [row[1]] keep their meaning on tuples of any length. *)

From Stdlib Require Import List QArith Qcanon Lqa String Bool Lia.
Import ListNotations.

Local Open Scope string_scope.
Local Open Scope list_scope.
Local Open Scope Qc_scope.

(** ** Python values *)

Definition number := Qc.

Definition num (q : Q) : number := Q2Qc q.
Arguments num q%_Q.

(** [a <= b] and [a < b] on Python numbers. *)
Definition leb (a b : number) : bool := Qle_bool a b.
Definition ltb (a b : number) : bool := negb (Qle_bool b a).

(** A tuple of numbers: [(46.1, 5.2)] is [[num 46.1; num 5.2]]. *)
Definition tuple := list number.

(** [None] or a float, the values a [Float] trait is offered. *)
Definition float_value := option number.

Definition number_eqb (a b : number) : bool := Qc_eq_bool a b.

Fixpoint list_eqb {A} (eqb : A -> A -> bool) (xs ys : list A) : bool :=
  match xs, ys with
  | [], [] => true
  | x :: xs', y :: ys' => eqb x y && list_eqb eqb xs' ys'
  | _, _ => false
  end.

Definition option_eqb {A} (eqb : A -> A -> bool) (x y : option A) : bool :=
  match x, y with
  | None, None => true
  | Some a, Some b => eqb a b
  | _, _ => false
  end.

Definition tuple_eqb : tuple -> tuple -> bool := list_eqb number_eqb.

(** ** Exceptions, results and methods *)

Inductive exn :=
| TraitError (trait_name : string)
| InvalidPointException (point : tuple)
| IndexError
| ValueError
| OverflowError.

Inductive result (A : Type) :=
| Return (a : A)
| Raise (e : exn).
Arguments Return {A} a.
Arguments Raise {A} e.

(** A method of an object of type [Self]: it runs on the object, leaves it
    in a new state and either returns or raises. An exception does not undo
    the mutations made before it. *)
Definition method (Self A : Type) := Self -> Self * result A.

Definition ret {Self A} (a : A) : method Self A := fun self => (self, Return a).

Definition lift {Self A} (r : result A) : method Self A := fun self => (self, r).

Definition bind {Self A B} (m : method Self A) (k : A -> method Self B)
  : method Self B :=
  fun self =>
    match m self with
    | (self', Return a) => k a self'
    | (self', Raise e) => (self', Raise e)
    end.

Declare Scope method_scope.
Delimit Scope method_scope with method.
Notation "x <- m ;; k" := (bind m (fun x => k))
  (at level 61, m at next level, right associativity) : method_scope.
Notation "' pat <- m ;; k" := (bind m (fun x => match x with pat => k end))
  (at level 61, pat pattern, m at next level, right associativity) : method_scope.

(** [tup[i]] *)
Definition getitem (i : nat) (tup : tuple) : result number :=
  match nth_error tup i with
  | Some x => Return x
  | None => Raise IndexError
  end.

(** [[row[i] for row in data]] *)
Fixpoint column (i : nat) (data : list tuple) : result (list number) :=
  match data with
  | [] => Return []
  | row :: rest =>
      match getitem i row with
      | Raise e => Raise e
      | Return x =>
          match column i rest with
          | Raise e => Raise e
          | Return xs => Return (x :: xs)
          end
      end
  end.

(** ** traitlets: validated, observed attributes *)

Module traitlets.

(** The argument of a [@validate] hook; the hook reads [proposal["value"]]. *)
Record proposal (V : Type) := { value : V }.
Arguments value {V} p.

(** The argument of an [@observe] hook; the hook reads [change["new"]]. *)
Record change (V : Type) := { old : V; new : V }.
Arguments old {V} c.
Arguments new {V} c.

Section HasTraits.
Context {Self V : Type}.

(** A trait of a class: its own check of an offered value, where the
    object keeps the value, and [==] on its values. *)
Record TraitType := {
  name : string;
  validate : V -> result V;
  get : Self -> V;
  put : V -> Self -> Self;
  eqb : V -> V -> bool
}.

(** [obj.name = value]: the trait's check, then the class's [@validate]
    hook; either may raise, and then nothing is stored.  Otherwise the
    value is stored and, unless the old and the new value compare equal,
    the [@observe] hook of the class is called. *)
Definition set (t : TraitType)
    (cross_validate : Self -> proposal V -> result V)
    (observer : change V -> method Self unit)
    (v : V) : method Self unit :=
  fun self =>
    match validate t v with
    | Raise e => (self, Raise e)
    | Return v1 =>
        match cross_validate self {| value := v1 |} with
        | Raise e => (self, Raise e)
        | Return new_value =>
            let old_value := get t self in
            let self' := put t new_value self in
            if eqb t old_value new_value then (self', Return tt)
            else observer {| old := old_value; new := new_value |} self'
        end
    end.

(** A trait without hooks. *)
Definition no_validator (self : Self) (p : proposal V) : result V :=
  Return (value p).
Definition no_observer (c : change V) : method Self unit := ret tt.
End HasTraits.
Arguments TraitType Self V : clear implicits.

(** [Float(allow_none=..., min=..., max=...)] on a value that is [None] or
    a float: [None] only where allowed, a float only within the declared
    bounds. An int is cast to a float before it gets here, see
    [Float_cast]. *)
Definition Float_validate (trait_name : string) (allow_none : bool)
    (min max : option number) (v : float_value) : result float_value :=
  match v with
  | None => if allow_none then Return None else Raise (TraitError trait_name)
  | Some x =>
      if match min with Some lo => ltb x lo | None => false end
      then Raise (TraitError trait_name)
      else if match max with Some hi => ltb hi x | None => false end
      then Raise (TraitError trait_name)
      else Return (Some x)
  end.

(** A value offered to a [Float] trait: [None], an int or a float. *)
Inductive offered :=
| offered_None
| offered_int (z : Z)
| offered_float (x : number).

(** A natural number rounded to 53 significant bits, ties to the even
    neighbour: the magnitude of the float nearest to it. *)
Definition round_to_53_bits (n : Z) : Z :=
  let dropped := Z.max 0 (Z.log2 n + 1 - 53) in
  let kept := Z.shiftr n dropped in
  let remainder := (n - Z.shiftl kept dropped)%Z in
  let half := Z.shiftl 1 (dropped - 1) in
  let round_up :=
    (0 <? dropped)%Z
    && ((half <? remainder)%Z || ((remainder =? half)%Z && Z.odd kept)) in
  Z.shiftl (if round_up then (kept + 1)%Z else kept) dropped.

(** [float(z)] for an int [z]: the nearest float, or [OverflowError] when
    that would be 2^1024 or more. *)
Definition float_of_int (z : Z) : result number :=
  let magnitude := round_to_53_bits (Z.abs z) in
  if (2 ^ 1024 <=? magnitude)%Z then Raise OverflowError
  else Return (num (inject_Z (Z.sgn z * magnitude))).

(** The first step of [Float.validate]:
    [if isinstance(value, int): value = float(value)]. *)
Definition Float_cast (v : offered) : result float_value :=
  match v with
  | offered_None => Return None
  | offered_int z =>
      match float_of_int z with
      | Raise e => Raise e
      | Return x => Return (Some x)
      end
  | offered_float x => Return (Some x)
  end.

(** [obj.name = value] on a [Float] trait without hooks, for any value
    that may be offered: the cast, then the assignment of the float. *)
Definition set_Float {Self : Type} (t : TraitType Self float_value)
    (v : offered) : method Self unit :=
  fun self =>
    match Float_cast v with
    | Raise e => (self, Raise e)
    | Return v' => set t no_validator no_observer v' self
    end.

(** [List(trait=..., allow_none=..., minlen=...)]: [None] only where
    allowed; a list of at least [minlen] elements, each passed through the
    element trait. *)
Fixpoint validate_elements {A} (trait_name : string)
    (element : A -> option A) (xs : list A) : result (list A) :=
  match xs with
  | [] => Return []
  | x :: rest =>
      match element x with
      | None => Raise (TraitError trait_name)
      | Some x' =>
          match validate_elements trait_name element rest with
          | Raise e => Raise e
          | Return rest' => Return (x' :: rest')
          end
      end
  end.

Definition List_validate {A} (trait_name : string) (element : A -> option A)
    (allow_none : bool) (minlen : nat) (v : option (list A))
  : result (option (list A)) :=
  match v with
  | None => if allow_none then Return None else Raise (TraitError trait_name)
  | Some xs =>
      if Nat.ltb (List.length xs) minlen then Raise (TraitError trait_name)
      else match validate_elements trait_name element xs with
           | Raise e => Raise e
           | Return xs' => Return (Some xs')
           end
  end.

End traitlets.

(** ** gmaps.geotraitlets *)

Module geotraitlets.

(** Modelled from the spec: [geotraitlets.is_valid_point] is not part of
    [heatmap.py]. A point is valid when it is a pair whose latitude lies
    in [-90, 90] and whose longitude lies in [-180, 180]; anything else,
    a malformed point included, is invalid. *)
Definition is_valid_point (pt : tuple) : bool :=
  match pt with
  | [latitude; longitude] =>
      leb (num (-90)) latitude && leb latitude (num 90)
      && leb (num (-180)) longitude && leb longitude (num 180)
  | _ => false
  end.

(** Modelled from the spec: the colours [geotraitlets.ColorAlpha] accepts
    are a name, an RGB triple or an RGBA quadruple. *)
Inductive color :=
| ColorName (name : string)
| RGB (r g b : number)
| RGBA (r g b a : number).

Definition ColorAlpha (c : color) : option color := Some c.

Definition color_eqb (c1 c2 : color) : bool :=
  match c1, c2 with
  | ColorName s1, ColorName s2 => String.eqb s1 s2
  | RGB r1 g1 b1, RGB r2 g2 b2 =>
      number_eqb r1 r2 && number_eqb g1 g2 && number_eqb b1 b2
  | RGBA r1 g1 b1 a1, RGBA r2 g2 b2 a2 =>
      number_eqb r1 r2 && number_eqb g1 g2 && number_eqb b1 b2
      && number_eqb a1 a2
  | _, _ => false
  end.

End geotraitlets.

(** ** gmaps.bounds *)

Module bounds.

(** The first element of [best :: xs] on which [key] is smallest,
    respectively largest: Python's [min(..., key=key)] and
    [max(..., key=key)] on a sequence that starts with [best]. *)
Fixpoint first_min_by (key : number -> number) (best : number)
    (xs : list number) : number :=
  match xs with
  | [] => best
  | x :: rest =>
      first_min_by key (if ltb (key x) (key best) then x else best) rest
  end.

Fixpoint first_max_by (key : number -> number) (best : number)
    (xs : list number) : number :=
  match xs with
  | [] => best
  | x :: rest =>
      first_max_by key (if ltb (key best) (key x) then x else best) rest
  end.

(** Python's [min] and [max]. *)
Definition py_min (best : number) (xs : list number) : number :=
  first_min_by (fun x => x) best xs.

Definition py_max (best : number) (xs : list number) : number :=
  first_max_by (fun x => x) best xs.

(** Modelled from the spec: [bounds.latitude_bounds] is not part of
    [heatmap.py]. Simple min/max over the latitude values; undefined on
    the empty sequence. *)
Definition latitude_bounds (latitudes : list number)
  : result (number * number) :=
  match latitudes with
  | [] => Raise ValueError
  | x :: rest => Return (py_min x rest, py_max x rest)
  end.

(** The angular distance travelled eastwards from longitude [a] to
    longitude [b], in [[0, 360)] for longitudes in [[-180, 180]]. *)
Definition east (a b : number) : number :=
  let d := b - a in
  if ltb d (num 0) then d + num 360
  else if leb (num 360) d then d - num 360
  else d.

(** The arc that starts at [west] and runs eastwards just far enough to
    contain every longitude of [x :: xs]: where it ends, and how wide it
    is. *)
Definition arc_end (x : number) (xs : list number) (west : number) : number :=
  first_max_by (east west) x xs.

Definition arc_width (x : number) (xs : list number) (west : number)
  : number :=
  east west (arc_end x xs west).

(** Modelled from the spec: [bounds.longitude_bounds] is not part of
    [heatmap.py]. The circular interval of minimal angular width that
    contains all longitudes, as (west end, east end): among the arcs that
    start at one of the longitudes and run eastwards over all the others,
    the first narrowest one. Undefined on the empty sequence. *)
Definition longitude_bounds (longitudes : list number)
  : result (number * number) :=
  match longitudes with
  | [] => Raise ValueError
  | x :: rest =>
      let west := first_min_by (arc_width x rest) x rest in
      Return (west, arc_end x rest west)
  end.

End bounds.

(** ** gmaps/heatmap.py *)

Import traitlets.

(** The state of a layer object: the five option traits of
    [_HeatmapOptionsMixin] and the two traits [data] and [data_bounds] that
    [Heatmap] and [WeightedHeatmap] both declare. *)
Record layer := {
  max_intensity : float_value;
  point_radius : float_value;
  dissipating : bool;
  opacity : float_value;
  gradient : option (list geotraitlets.color);
  data : list tuple;
  data_bounds : list tuple
}.

(** [data = List()] and [data_bounds = List()], declared alike by both
    layer classes. *)
Definition data_trait : TraitType layer (list tuple) := {|
  name := "data";
  validate := fun v => Return v;
  get := data;
  put := fun v self =>
    {| max_intensity := max_intensity self; point_radius := point_radius self;
       dissipating := dissipating self; opacity := opacity self;
       gradient := gradient self; data := v;
       data_bounds := data_bounds self |};
  eqb := list_eqb tuple_eqb
|}.

Definition data_bounds_trait : TraitType layer (list tuple) := {|
  name := "data_bounds";
  validate := fun v => Return v;
  get := data_bounds;
  put := fun v self =>
    {| max_intensity := max_intensity self; point_radius := point_radius self;
       dissipating := dissipating self; opacity := opacity self;
       gradient := gradient self; data := data self;
       data_bounds := v |};
  eqb := list_eqb tuple_eqb
|}.

Module _HeatmapOptionsMixin.

(** [max_intensity = Float(default_value=None, allow_none=True)] *)
Definition max_intensity_trait : TraitType layer float_value := {|
  name := "max_intensity";
  validate := Float_validate "max_intensity" true None None;
  get := max_intensity;
  put := fun v self =>
    {| max_intensity := v; point_radius := point_radius self;
       dissipating := dissipating self; opacity := opacity self;
       gradient := gradient self; data := data self;
       data_bounds := data_bounds self |};
  eqb := option_eqb number_eqb
|}.

(** [point_radius = Float(default_value=None, allow_none=True)] *)
Definition point_radius_trait : TraitType layer float_value := {|
  name := "point_radius";
  validate := Float_validate "point_radius" true None None;
  get := point_radius;
  put := fun v self =>
    {| max_intensity := max_intensity self; point_radius := v;
       dissipating := dissipating self; opacity := opacity self;
       gradient := gradient self; data := data self;
       data_bounds := data_bounds self |};
  eqb := option_eqb number_eqb
|}.

(** [dissipating = Bool(default_value=True)] *)
Definition dissipating_trait : TraitType layer bool := {|
  name := "dissipating";
  validate := fun v => Return v;
  get := dissipating;
  put := fun v self =>
    {| max_intensity := max_intensity self; point_radius := point_radius self;
       dissipating := v; opacity := opacity self;
       gradient := gradient self; data := data self;
       data_bounds := data_bounds self |};
  eqb := Bool.eqb
|}.

(** [opacity = Float(default_value=0.6, min=0.0, max=1.0)] *)
Definition opacity_trait : TraitType layer float_value := {|
  name := "opacity";
  validate :=
    Float_validate "opacity" false (Some (num 0.0)) (Some (num 1.0));
  get := opacity;
  put := fun v self =>
    {| max_intensity := max_intensity self; point_radius := point_radius self;
       dissipating := dissipating self; opacity := v;
       gradient := gradient self; data := data self;
       data_bounds := data_bounds self |};
  eqb := option_eqb number_eqb
|}.

(** [gradient = List(trait=geotraitlets.ColorAlpha(), allow_none=True,
    minlen=1)] *)
Definition gradient_trait
  : TraitType layer (option (list geotraitlets.color)) := {|
  name := "gradient";
  validate := List_validate "gradient" geotraitlets.ColorAlpha true 1;
  get := gradient;
  put := fun v self =>
    {| max_intensity := max_intensity self; point_radius := point_radius self;
       dissipating := dissipating self; opacity := opacity self;
       gradient := v; data := data self;
       data_bounds := data_bounds self |};
  eqb := option_eqb (list_eqb geotraitlets.color_eqb)
|}.

(** [@default("gradient")] *)
Definition _default_gradient : option (list geotraitlets.color) := None.

(** A layer constructed without arguments: every trait has its default. *)
Definition __init__ : layer := {|
  max_intensity := None;
  point_radius := None;
  dissipating := true;
  opacity := Some (num 0.6);
  gradient := _default_gradient;
  data := [];
  data_bounds := []
|}.

(** Assignments to the option traits; the mixin declares no hook on them. *)
Definition setattr_max_intensity : float_value -> method layer unit :=
  set max_intensity_trait no_validator no_observer.
Definition setattr_point_radius : float_value -> method layer unit :=
  set point_radius_trait no_validator no_observer.
Definition setattr_dissipating : bool -> method layer unit :=
  set dissipating_trait no_validator no_observer.
Definition setattr_opacity : float_value -> method layer unit :=
  set opacity_trait no_validator no_observer.
Definition setattr_gradient
  : option (list geotraitlets.color) -> method layer unit :=
  set gradient_trait no_validator no_observer.
Definition setattr_data_bounds : list tuple -> method layer unit :=
  set data_bounds_trait no_validator no_observer.

(** The same assignments when the value offered may also be an int. *)
Definition offer_max_intensity : offered -> method layer unit :=
  set_Float max_intensity_trait.
Definition offer_opacity : offered -> method layer unit :=
  set_Float opacity_trait.

Definition _latitude_bounds (latitudes : list number)
  : result (number * number) :=
  bounds.latitude_bounds latitudes.

Definition _longitude_bounds (longitudes : list number)
  : result (number * number) :=
  bounds.longitude_bounds longitudes.

Definition set_bounds (data : list tuple) : method layer unit :=
  (latitudes <- lift (column 0 data) ;;
   longitudes <- lift (column 1 data) ;;
   '(min_latitude, max_latitude) <- lift (_latitude_bounds latitudes) ;;
   '(min_longitude, max_longitude) <- lift (_longitude_bounds longitudes) ;;
   setattr_data_bounds
     [ [min_latitude; min_longitude];
       [max_latitude; max_longitude] ])%method.

End _HeatmapOptionsMixin.

Module Heatmap.
Import _HeatmapOptionsMixin.

Definition has_bounds : bool := true.
Definition _view_name : string := "SimpleHeatmapLayerView".
Definition _view_module : string := "jupyter-gmaps".
Definition _model_name : string := "SimpleHeatmapLayerModel".
Definition _model_module : string := "jupyter-gmaps".

(** The loop of [_validate_data]: the first invalid point raises. *)
Fixpoint for_point_in (points : list tuple) : result unit :=
  match points with
  | [] => Return tt
  | point :: rest =>
      if negb (geotraitlets.is_valid_point point)
      then Raise (InvalidPointException point)
      else for_point_in rest
  end.

(** [@validate("data")] *)
Definition _validate_data (self : layer) (proposal : proposal (list tuple))
  : result (list tuple) :=
  match for_point_in (value proposal) with
  | Raise e => Raise e
  | Return _ => Return (value proposal)
  end.

(** [@observe("data")] *)
Definition _calc_bounds (change : change (list tuple)) : method layer unit :=
  let data := new change in
  set_bounds data.

(** [layer.data = value] *)
Definition setattr_data : list tuple -> method layer unit :=
  set data_trait _validate_data _calc_bounds.

End Heatmap.

Module WeightedHeatmap.
Import _HeatmapOptionsMixin.

Definition has_bounds : bool := true.
Definition _view_name : string := "WeightedHeatmapLayerView".
Definition _view_module : string := "jupyter-gmaps".
Definition _model_name : string := "WeightedHeatmapLayerModel".
Definition _model_module : string := "jupyter-gmaps".

(** The loop of [_validate_data]: only [point[:2]] is checked, the whole
    point is reported. Nothing follows the [# check weight] comment. *)
Fixpoint for_point_in (points : list tuple) : result unit :=
  match points with
  | [] => Return tt
  | point :: rest =>
      if negb (geotraitlets.is_valid_point (firstn 2 point))
      then Raise (InvalidPointException point)
      else for_point_in rest
  end.

(** [@validate("data")] *)
Definition _validate_data (self : layer) (proposal : proposal (list tuple))
  : result (list tuple) :=
  match for_point_in (value proposal) with
  | Raise e => Raise e
  | Return _ => Return (value proposal)
  end.

(** [@observe("data")] *)
Definition _calc_bounds (change : change (list tuple)) : method layer unit :=
  let data := new change in
  set_bounds data.

(** [layer.data = value] *)
Definition setattr_data : list tuple -> method layer unit :=
  set data_trait _validate_data _calc_bounds.

End WeightedHeatmap.

(** ** Layer states and what the statements below speak of *)

(** The two layer classes. The class of the object decides which
    [_validate_data] and which [_calc_bounds] an assignment to [data]
    runs. *)
Inductive layer_class := HeatmapClass | WeightedHeatmapClass.

Definition validate_data (cls : layer_class)
  : layer -> proposal (list tuple) -> result (list tuple) :=
  match cls with
  | HeatmapClass => Heatmap._validate_data
  | WeightedHeatmapClass => WeightedHeatmap._validate_data
  end.

(** [layer.data = value] on an instance of [cls]. *)
Definition setattr_data (cls : layer_class)
  : list tuple -> method layer unit :=
  match cls with
  | HeatmapClass => Heatmap.setattr_data
  | WeightedHeatmapClass => WeightedHeatmap.setattr_data
  end.

(** What [WeightedHeatmap] checks of a point: its first two components. *)
Definition valid_weighted (point : tuple) : bool :=
  geotraitlets.is_valid_point (firstn 2 point).

(** The test that the validation loop of [cls] applies to a point. *)
Definition checks (cls : layer_class) : tuple -> bool :=
  match cls with
  | HeatmapClass => geotraitlets.is_valid_point
  | WeightedHeatmapClass => valid_weighted
  end.

(** The data of the docstrings' examples. *)
Definition example_data : list tuple :=
  [ [num 46.1; num 5.2]; [num 46.2; num 5.3]; [num 46.3; num 5.4] ].

Definition example_weighted_data : list tuple :=
  [ [num 46.1; num 5.2; num 0.5]; [num 46.2; num 5.3; num 0.2];
    [num 46.3; num 5.4; num 0.8] ].

(** The states a layer built without arguments goes through when [data]
    and the option fields are assigned, whether an assignment returns or
    raises. [setattr_data] is the class's assignment to [data]. *)
Inductive reachable (setattr_data : list tuple -> method layer unit)
  : layer -> Prop :=
| reach_init : reachable setattr_data _HeatmapOptionsMixin.__init__
| reach_data value self :
    reachable setattr_data self ->
    reachable setattr_data (fst (setattr_data value self))
| reach_max_intensity v self :
    reachable setattr_data self ->
    reachable setattr_data
      (fst (_HeatmapOptionsMixin.setattr_max_intensity v self))
| reach_point_radius v self :
    reachable setattr_data self ->
    reachable setattr_data
      (fst (_HeatmapOptionsMixin.setattr_point_radius v self))
| reach_dissipating v self :
    reachable setattr_data self ->
    reachable setattr_data
      (fst (_HeatmapOptionsMixin.setattr_dissipating v self))
| reach_opacity v self :
    reachable setattr_data self ->
    reachable setattr_data
      (fst (_HeatmapOptionsMixin.setattr_opacity v self))
| reach_gradient v self :
    reachable setattr_data self ->
    reachable setattr_data
      (fst (_HeatmapOptionsMixin.setattr_gradient v self)).

(** [bounds_of data b]: [b] is the list of the two corners that the
    latitude and longitude bounds functions produce on [data]. *)
Definition bounds_of (data : list tuple) (b : list tuple) : Prop :=
  exists latitudes longitudes min_latitude max_latitude
         min_longitude max_longitude,
    column 0 data = Return latitudes /\
    column 1 data = Return longitudes /\
    bounds.latitude_bounds latitudes = Return (min_latitude, max_latitude) /\
    bounds.longitude_bounds longitudes
      = Return (min_longitude, max_longitude) /\
    b = [ [min_latitude; min_longitude]; [max_latitude; max_longitude] ].

(** The bounds of a layer match its data; nothing is asked of a layer
    without data. *)
Definition coherent (self : layer) : Prop :=
  data self = [] \/ bounds_of (data self) (data_bounds self).

(** [p] is the first point of [value] that [valid] turns down. *)
Definition first_offending (valid : tuple -> bool) (value : list tuple)
    (p : tuple) : Prop :=
  exists before after,
    value = before ++ p :: after /\
    Forall (fun q => valid q = true) before /\
    valid p = false.

Definition least (m : number) (xs : list number) : Prop :=
  In m xs /\ forall x, In x xs -> m <= x.

Definition greatest (m : number) (xs : list number) : Prop :=
  In m xs /\ forall x, In x xs -> x <= m.

Definition valid_latitude (latitude : number) : Prop :=
  num (-90) <= latitude /\ latitude <= num 90.

Definition valid_longitude (longitude : number) : Prop :=
  num (-180) <= longitude /\ longitude <= num 180.

(** The longitudes lie within less than a half turn of each other as
    plain numbers: they do not straddle the antimeridian. *)
Definition no_straddle (longitudes : list number) : Prop :=
  forall a b, In a longitudes -> In b longitudes -> b - a < num 180.

(** The arc from [west] eastwards to [east_end] contains every longitude
    of [longitudes]. *)
Definition arc_contains (west east_end : number) (longitudes : list number)
  : Prop :=
  forall l, In l longitudes -> bounds.east west l <= bounds.east west east_end.

(** ** Numbers *)

Lemma leb_spec (a b : number) : leb a b = true <-> a <= b.
Proof. apply Qle_bool_iff. Qed.

Lemma ltb_spec (a b : number) : ltb a b = true <-> a < b.
Proof.
  unfold ltb, Qclt.
  rewrite negb_true_iff, <- not_true_iff_false, Qle_bool_iff.
  split; intro H; lra.
Qed.

Lemma ltb_false (a b : number) : ltb a b = false <-> b <= a.
Proof.
  unfold ltb. rewrite negb_false_iff. apply Qle_bool_iff.
Qed.

Lemma leb_false (a b : number) : leb a b = false <-> b < a.
Proof.
  unfold leb, Qclt.
  rewrite <- not_true_iff_false, Qle_bool_iff.
  split; intro H; lra.
Qed.

Lemma this_num (q : Q) : (this (num q) == q)%Q.
Proof. apply Qred_correct. Qed.

Lemma this_plus (a b : number) : (this (a + b) == this a + this b)%Q.
Proof. apply Qred_correct. Qed.

Lemma this_opp (a : number) : (this (- a) == - this a)%Q.
Proof. apply Qred_correct. Qed.

Lemma this_minus (a b : number) : (this (a - b) == this a - this b)%Q.
Proof. unfold Qcminus. rewrite this_plus, this_opp. reflexivity. Qed.

(** Comparisons of numbers, read as comparisons of rationals. *)
Ltac to_Q :=
  repeat match goal with
  | H : ltb _ _ = true |- _ => apply ltb_spec in H
  | H : ltb _ _ = false |- _ => apply ltb_false in H
  | H : leb _ _ = true |- _ => apply leb_spec in H
  | H : leb _ _ = false |- _ => apply leb_false in H
  | H : @eq number ?a ?b |- _ =>
      first [ subst a | subst b | apply (f_equal this) in H ]
  end;
  try match goal with |- @eq number _ _ => apply Qc_is_canon end;
  unfold Qcle, Qclt in *;
  repeat rewrite ?this_plus, ?this_minus, ?this_opp, ?this_num in *.

Ltac number_arith := to_Q; lra.

Lemma number_eqb_eq (a b : number) : number_eqb a b = true <-> a = b.
Proof.
  split.
  - apply Qc_eq_bool_correct.
  - intros ->. unfold number_eqb, Qc_eq_bool.
    destruct (Qc_eq_dec b b); congruence.
Qed.

Lemma list_eqb_eq {A} (eqb : A -> A -> bool) :
  (forall x y, eqb x y = true <-> x = y) ->
  forall xs ys, list_eqb eqb xs ys = true <-> xs = ys.
Proof.
  intros Heqb xs. induction xs as [|x xs IH]; intros [|y ys]; simpl;
    try (split; [discriminate | congruence]); try tauto.
  rewrite andb_true_iff, Heqb, IH. split.
  - intros [-> ->]. reflexivity.
  - intros H. inversion H. auto.
Qed.

Lemma data_eqb_eq (xs ys : list tuple) :
  list_eqb tuple_eqb xs ys = true <-> xs = ys.
Proof. apply list_eqb_eq, list_eqb_eq, number_eqb_eq. Qed.

Lemma data_eqb_refl (xs : list tuple) : list_eqb tuple_eqb xs xs = true.
Proof. apply data_eqb_eq. reflexivity. Qed.

(** ** The validation loop *)

Section ValidationLoop.
(** Both classes run the same loop, each with its own test of a point. *)
Variable valid : tuple -> bool.
Variable loop : list tuple -> result unit.
Hypothesis loop_nil : loop [] = Return tt.
Hypothesis loop_cons : forall point rest,
  loop (point :: rest)
  = if negb (valid point) then Raise (InvalidPointException point)
    else loop rest.

Lemma loop_accepts (points : list tuple) :
  Forall (fun q => valid q = true) points -> loop points = Return tt.
Proof.
  induction 1 as [|q rest Hq _ IH]; [exact loop_nil|].
  rewrite loop_cons, Hq. exact IH.
Qed.

Lemma loop_rejects (before after : list tuple) (p : tuple) :
  Forall (fun q => valid q = true) before ->
  valid p = false ->
  loop (before ++ p :: after) = Raise (InvalidPointException p).
Proof.
  intros Hbefore Hp.
  induction Hbefore as [|q rest Hq _ IH]; simpl; rewrite loop_cons.
  - rewrite Hp. reflexivity.
  - rewrite Hq. exact IH.
Qed.

Lemma first_offending_exists (points : list tuple) :
  Exists (fun q => valid q = false) points ->
  exists p, first_offending valid points p.
Proof.
  induction points as [|q rest IH]; intros Hex; [inversion Hex|].
  destruct (valid q) eqn:Hq.
  - assert (Hrest : Exists (fun q => valid q = false) rest).
    { inversion Hex; subst; [congruence | assumption]. }
    destruct (IH Hrest) as (p & before & after & -> & Hbefore & Hp).
    exists p, (q :: before), after. repeat split; auto.
  - exists q, [], rest. repeat split; auto.
Qed.

Lemma loop_outcome (points : list tuple) :
  (loop points = Return tt /\ Forall (fun q => valid q = true) points)
  \/ (exists p, loop points = Raise (InvalidPointException p)
                /\ first_offending valid points p).
Proof.
  induction points as [|q rest IH].
  - left. split; [exact loop_nil | constructor].
  - rewrite loop_cons. destruct (valid q) eqn:Hq; simpl.
    + destruct IH as [[Hok Hall] | (p & Hraise & before & after & -> & Hb & Hp)].
      * left. split; auto.
      * right. exists p. split; [assumption|].
        exists (q :: before), after. repeat split; auto.
    + right. exists q. split; [reflexivity|].
      exists [], rest. repeat split; auto.
Qed.

Lemma first_offending_not_all (points : list tuple) (p : tuple) :
  first_offending valid points p ->
  ~ Forall (fun q => valid q = true) points.
Proof.
  intros (before & after & -> & _ & Hp) Hall.
  apply Forall_app in Hall as [_ Hall]. inversion Hall; congruence.
Qed.
End ValidationLoop.

(** ** Assignments *)

Section DataAssignment.
(** An assignment to [data] whose [@validate] hook is [cross_validate]
    and whose [@observe] hook is [observer]. *)
Variable cross_validate : layer -> proposal (list tuple) -> result (list tuple).
Variable observer : change (list tuple) -> method layer unit.

Lemma set_data_rejected (value : list tuple) (self : layer) (e : exn) :
  cross_validate self {| value := value |} = Raise e ->
  set data_trait cross_validate observer value self = (self, Raise e).
Proof. intros H. unfold set. simpl. rewrite H. reflexivity. Qed.

Lemma set_data_unchanged (value : list tuple) (self : layer) :
  cross_validate self {| value := value |} = Return value ->
  data self = value ->
  set data_trait cross_validate observer value self = (self, Return tt).
Proof.
  intros H Hsame. unfold set. simpl. rewrite H.
  rewrite Hsame, data_eqb_refl. subst value. destruct self; reflexivity.
Qed.

Lemma set_data_changed (value : list tuple) (self : layer) :
  cross_validate self {| value := value |} = Return value ->
  data self <> value ->
  set data_trait cross_validate observer value self
  = observer {| old := data self; new := value |} (put data_trait value self).
Proof.
  intros H Hdiff. unfold set. simpl. rewrite H.
  destruct (list_eqb tuple_eqb (data self) value) eqn:E; [|reflexivity].
  apply data_eqb_eq in E. contradiction.
Qed.
End DataAssignment.

(** ** [set_bounds] *)

Import _HeatmapOptionsMixin.

Lemma setattr_data_bounds_stores (b : list tuple) (self : layer) :
  setattr_data_bounds b self = (put data_bounds_trait b self, Return tt).
Proof.
  unfold setattr_data_bounds, set, no_validator, no_observer, ret. simpl.
  destruct (list_eqb tuple_eqb (data_bounds self) b); reflexivity.
Qed.

(** [set_bounds] either stores the two corners the bounds functions
    produce, or raises before it has touched the layer. *)
Lemma set_bounds_outcome (d : list tuple) (self : layer) :
  (exists b, bounds_of d b /\
             set_bounds d self = (put data_bounds_trait b self, Return tt))
  \/ (~ (exists b, bounds_of d b) /\
      (set_bounds d self = (self, Raise IndexError)
       \/ set_bounds d self = (self, Raise ValueError))).
Proof.
  unfold set_bounds, bind, lift, bounds_of,
    _latitude_bounds, _longitude_bounds.
  destruct (column 0 d) as [lats|e0] eqn:E0.
  2:{ right. split.
      - intros (b & l1 & l2 & a1 & a2 & a3 & a4 & H & _). discriminate.
      - clear - E0. revert e0 E0. induction d as [|row rest IH]; simpl.
        + discriminate.
        + intros e0. unfold getitem.
          destruct (nth_error row 0).
          * destruct (column 0 rest); [discriminate|].
            intros [= <-]. destruct (IH e eq_refl); [left|right]; congruence.
          * intros [= <-]. left. reflexivity. }
  destruct (column 1 d) as [lons|e1] eqn:E1.
  2:{ right. split.
      - intros (b & l1 & l2 & a1 & a2 & a3 & a4 & _ & H & _). discriminate.
      - clear - E1. revert e1 E1. induction d as [|row rest IH]; simpl.
        + discriminate.
        + intros e1. unfold getitem.
          destruct (nth_error row 1).
          * destruct (column 1 rest); [discriminate|].
            intros [= <-]. destruct (IH e eq_refl); [left|right]; congruence.
          * intros [= <-]. left. reflexivity. }
  destruct lats as [|la lats].
  { right. split; [|right; reflexivity].
    intros (b & l1 & l2 & a1 & a2 & a3 & a4 & [= <-] & _ & H & _).
    discriminate. }
  destruct lons as [|lo lons].
  { right. split; [|right; reflexivity].
    intros (b & l1 & l2 & a1 & a2 & a3 & a4 & _ & [= <-] & _ & H & _).
    discriminate. }
  left. simpl. eexists. split.
  - do 6 eexists. repeat split; reflexivity.
  - apply setattr_data_bounds_stores.
Qed.

Lemma bounds_of_unique (d b1 b2 : list tuple) :
  bounds_of d b1 -> bounds_of d b2 -> b1 = b2.
Proof.
  intros (l1 & l2 & a1 & a2 & a3 & a4 & H0 & H1 & Hla & Hlo & ->)
         (m1 & m2 & c1 & c2 & c3 & c4 & K0 & K1 & Kla & Klo & ->).
  congruence.
Qed.

Lemma set_bounds_keeps_data (d : list tuple) (self : layer) :
  data (fst (set_bounds d self)) = data self.
Proof.
  destruct (set_bounds_outcome d self) as [(b & _ & ->) | (_ & [-> | ->])];
    reflexivity.
Qed.

Lemma set_bounds_no_InvalidPoint (d : list tuple) (self : layer) (p : tuple) :
  snd (set_bounds d self) <> Raise (InvalidPointException p).
Proof.
  destruct (set_bounds_outcome d self) as [(b & _ & ->) | (_ & [-> | ->])];
    discriminate.
Qed.

(** ** Assignments to the option fields *)

Section OptionAssignment.
Context {V : Type}.
Variable t : TraitType layer V.
Hypothesis put_keeps_data : forall v self, data (put t v self) = data self.
Hypothesis put_keeps_data_bounds : forall v self,
  data_bounds (put t v self) = data_bounds self.

Lemma option_assignment_frame (v : V) (self : layer) :
  data (fst (set t no_validator no_observer v self)) = data self /\
  data_bounds (fst (set t no_validator no_observer v self))
  = data_bounds self.
Proof.
  unfold set, no_validator, no_observer, ret.
  destruct (validate t v) as [v1|e]; simpl; [|split; reflexivity].
  destruct (eqb t (get t self) v1); simpl; auto.
Qed.
End OptionAssignment.

Lemma coherent_frame (self self' : layer) :
  data self' = data self /\ data_bounds self' = data_bounds self ->
  coherent self -> coherent self'.
Proof. unfold coherent. intros [-> ->]. trivial. Qed.

(** Points with a latitude and a longitude have bounds. *)
Lemma column_defined (i : nat) (d : list tuple) :
  Forall (fun p => (i < List.length p)%nat) d ->
  exists xs, column i d = Return xs /\ List.length xs = List.length d.
Proof.
  induction 1 as [|p rest Hp _ (xs & IH & Hlen)]; simpl.
  - exists []. split; reflexivity.
  - unfold getitem. destruct (nth_error p i) as [x|] eqn:E.
    + rewrite IH. exists (x :: xs). simpl. split; congruence.
    + apply nth_error_None in E. lia.
Qed.

Lemma bounds_of_defined (d : list tuple) :
  d <> [] ->
  Forall (fun p => (1 < List.length p)%nat) d ->
  exists b, bounds_of d b.
Proof.
  intros Hne Hall.
  destruct (column_defined 0 d) as (lats & H0 & L0).
  { eapply Forall_impl; [|exact Hall]. simpl. intros; lia. }
  destruct (column_defined 1 d) as (lons & H1 & L1); [exact Hall|].
  destruct d as [|p d]; [congruence|].
  destruct lats as [|la lats]; [discriminate|].
  destruct lons as [|lo lons]; [discriminate|].
  eexists. exists (la :: lats), (lo :: lons). do 4 eexists.
  repeat split; try eassumption; reflexivity.
Qed.

Lemma is_valid_point_pair (p : tuple) :
  geotraitlets.is_valid_point p = true ->
  exists latitude longitude,
    p = [latitude; longitude] /\
    valid_latitude latitude /\ valid_longitude longitude.
Proof.
  destruct p as [|la [|lo [|x rest]]]; simpl; try discriminate.
  rewrite !andb_true_iff, !leb_spec. intros [[[H1 H2] H3] H4].
  exists la, lo. repeat split; assumption.
Qed.

Lemma is_valid_point_iff (latitude longitude : number) :
  geotraitlets.is_valid_point [latitude; longitude] = true
  <-> valid_latitude latitude /\ valid_longitude longitude.
Proof.
  simpl. rewrite !andb_true_iff, !leb_spec.
  unfold valid_latitude, valid_longitude. tauto.
Qed.

Lemma valid_weighted_prefix (p : tuple) :
  valid_weighted p = true ->
  exists latitude longitude rest,
    p = latitude :: longitude :: rest /\
    valid_latitude latitude /\ valid_longitude longitude.
Proof.
  unfold valid_weighted. intros H.
  destruct (is_valid_point_pair _ H) as (la & lo & E & Hla & Hlo).
  destruct p as [|a [|b rest]]; simpl in E; try discriminate.
  injection E as -> ->. exists la, lo, rest. auto.
Qed.

Section LayerClass.
(** What the two classes have in common: a [@validate] hook that runs the
    validation loop and hands the value back, and an [@observe] hook that
    calls [set_bounds] on the new value. *)
Variable valid : tuple -> bool.
Variable loop : list tuple -> result unit.
Variable cross_validate : layer -> proposal (list tuple) -> result (list tuple).
Variable observer : change (list tuple) -> method layer unit.
Hypothesis loop_nil : loop [] = Return tt.
Hypothesis loop_cons : forall point rest,
  loop (point :: rest)
  = if negb (valid point) then Raise (InvalidPointException point)
    else loop rest.
Hypothesis cross_validate_runs_loop : forall self v,
  cross_validate self {| value := v |}
  = match loop v with Raise e => Raise e | Return _ => Return v end.
Hypothesis observer_sets_bounds : forall c, observer c = set_bounds (new c).
Hypothesis valid_has_coordinates : forall p,
  valid p = true -> (1 < List.length p)%nat.

Let assign := set data_trait cross_validate observer.

Lemma assignment_outcome (value : list tuple) (self : layer) :
  (Forall (fun q => valid q = true) value /\ data self = value /\
   assign value self = (self, Return tt))
  \/ (Forall (fun q => valid q = true) value /\ data self <> value /\
      assign value self
      = set_bounds value (put data_trait value self))
  \/ (exists p, first_offending valid value p /\
        assign value self = (self, Raise (InvalidPointException p))).
Proof.
  destruct (loop_outcome valid loop loop_nil loop_cons value)
    as [[Hok Hall] | (p & Hraise & Hfirst)].
  - assert (Hcv : cross_validate self {| value := value |} = Return value).
    { rewrite cross_validate_runs_loop, Hok. reflexivity. }
    destruct (list_eq_dec (list_eq_dec Qc_eq_dec) (data self) value)
      as [Hsame | Hdiff].
    + left. repeat split; auto. now apply set_data_unchanged.
    + right; left. repeat split; auto. unfold assign.
      rewrite set_data_changed by assumption.
      rewrite observer_sets_bounds. reflexivity.
  - right; right. exists p. split; [assumption|].
    apply set_data_rejected.
    rewrite cross_validate_runs_loop, Hraise. reflexivity.
Qed.

Lemma valid_data_has_bounds (value : list tuple) :
  value <> [] -> Forall (fun q => valid q = true) value ->
  exists b, bounds_of value b.
Proof.
  intros Hne Hall. apply bounds_of_defined; [assumption|].
  eapply Forall_impl; [|exact Hall]. exact valid_has_coordinates.
Qed.

Lemma assignment_keeps_coherent (value : list tuple) (self : layer) :
  coherent self -> coherent (fst (assign value self)).
Proof.
  intros Hco.
  destruct (assignment_outcome value self)
    as [(_ & _ & ->) | [(Hall & Hdiff & ->) | (p & _ & ->)]]; try exact Hco.
  destruct (set_bounds_outcome value (put data_trait value self))
    as [(b & Hb & ->) | (Hnone & Hraise)].
  - right. exact Hb.
  - left. destruct value as [|q value]; [|exfalso].
    + destruct Hraise as [-> | ->]; reflexivity.
    + apply Hnone, valid_data_has_bounds; [discriminate | assumption].
Qed.

Lemma reachable_coherent (self : layer) :
  reachable assign self -> coherent self.
Proof.
  induction 1 as [|value self _ IH|v self _ IH|v self _ IH|v self _ IH
                  |v self _ IH|v self _ IH].
  - left. reflexivity.
  - now apply assignment_keeps_coherent.
  - eapply coherent_frame; [|exact IH].
    now apply (option_assignment_frame max_intensity_trait).
  - eapply coherent_frame; [|exact IH].
    now apply (option_assignment_frame point_radius_trait).
  - eapply coherent_frame; [|exact IH].
    now apply (option_assignment_frame dissipating_trait).
  - eapply coherent_frame; [|exact IH].
    now apply (option_assignment_frame opacity_trait).
  - eapply coherent_frame; [|exact IH].
    now apply (option_assignment_frame gradient_trait).
Qed.

(** A successful assignment stores the value; the bounds are recomputed
    when the value is new and kept when it is not. *)
Lemma assignment_success (value : list tuple) (self self' : layer) :
  assign value self = (self', Return tt) ->
  Forall (fun q => valid q = true) value /\
  data self' = value /\
  (data self <> value -> bounds_of value (data_bounds self')) /\
  (data self = value -> self' = self).
Proof.
  intros Hrun.
  destruct (assignment_outcome value self)
    as [(Hall & Hsame & E) | [(Hall & Hdiff & E) | (p & _ & E)]];
    rewrite E in Hrun.
  - injection Hrun as <-. repeat split; auto. intros; contradiction.
  - destruct (set_bounds_outcome value (put data_trait value self))
      as [(b & Hb & E') | (_ & [E' | E'])]; rewrite E' in Hrun;
      try discriminate.
    injection Hrun as <-. repeat split; auto. intros; contradiction.
  - discriminate.
Qed.

(** Valid, non-empty data is always accepted, and the bounds then match. *)
Lemma assignment_of_valid_data (value : list tuple) (self : layer) :
  coherent self ->
  value <> [] -> Forall (fun q => valid q = true) value ->
  exists self',
    assign value self = (self', Return tt) /\
    data self' = value /\ bounds_of value (data_bounds self').
Proof.
  intros Hco Hne Hall.
  destruct (assignment_outcome value self)
    as [(_ & Hsame & E) | [(_ & Hdiff & E) | (p & Hfirst & _)]].
  - exists self. repeat split; auto.
    destruct Hco as [Hempty | Hb]; congruence.
  - destruct (set_bounds_outcome value (put data_trait value self))
      as [(b & Hb & E') | (Hnone & _)].
    + eexists. rewrite E, E'. repeat split. exact Hb.
    + exfalso. apply Hnone, valid_data_has_bounds; assumption.
  - exfalso. eapply first_offending_not_all; eassumption.
Qed.
End LayerClass.

(** ** Minima and maxima *)

Lemma first_max_by_spec (key : number -> number) (xs : list number) :
  forall best,
    In (bounds.first_max_by key best xs) (best :: xs) /\
    forall l, In l (best :: xs) ->
              key l <= key (bounds.first_max_by key best xs).
Proof.
  induction xs as [|x rest IH]; intros best; simpl.
  - split; [left; reflexivity|]. intros l [<- | []]. number_arith.
  - destruct (IH (if ltb (key best) (key x) then x else best)) as [Hin Hmax].
    split.
    + destruct Hin as [Hin | Hin]; [|right; right; exact Hin].
      rewrite <- Hin. destruct (ltb (key best) (key x)); auto.
    + intros l Hl.
      assert (Hbest : key best
                      <= key (if ltb (key best) (key x) then x else best)).
      { destruct (ltb (key best) (key x)) eqn:E; number_arith. }
      assert (Hx : key x
                   <= key (if ltb (key best) (key x) then x else best)).
      { destruct (ltb (key best) (key x)) eqn:E; number_arith. }
      pose proof (Hmax _ (or_introl eq_refl)) as Hcur.
      destruct Hl as [<- | [<- | Hl]].
      * number_arith.
      * number_arith.
      * apply Hmax. right. exact Hl.
Qed.

Lemma first_min_by_spec (key : number -> number) (xs : list number) :
  forall best,
    In (bounds.first_min_by key best xs) (best :: xs) /\
    forall l, In l (best :: xs) ->
              key (bounds.first_min_by key best xs) <= key l.
Proof.
  induction xs as [|x rest IH]; intros best; simpl.
  - split; [left; reflexivity|]. intros l [<- | []]. number_arith.
  - destruct (IH (if ltb (key x) (key best) then x else best)) as [Hin Hmin].
    split.
    + destruct Hin as [Hin | Hin]; [|right; right; exact Hin].
      rewrite <- Hin. destruct (ltb (key x) (key best)); auto.
    + intros l Hl.
      assert (Hbest : key (if ltb (key x) (key best) then x else best)
                      <= key best).
      { destruct (ltb (key x) (key best)) eqn:E; number_arith. }
      assert (Hx : key (if ltb (key x) (key best) then x else best)
                   <= key x).
      { destruct (ltb (key x) (key best)) eqn:E; number_arith. }
      pose proof (Hmin _ (or_introl eq_refl)) as Hcur.
      destruct Hl as [<- | [<- | Hl]].
      * number_arith.
      * number_arith.
      * apply Hmin. right. exact Hl.
Qed.

Lemma py_min_least (x : number) (xs : list number) :
  least (bounds.py_min x xs) (x :: xs).
Proof. exact (first_min_by_spec (fun x => x) xs x). Qed.

Lemma py_max_greatest (x : number) (xs : list number) :
  greatest (bounds.py_max x xs) (x :: xs).
Proof. exact (first_max_by_spec (fun x => x) xs x). Qed.

Lemma least_unique (m m' : number) (xs : list number) :
  least m xs -> least m' xs -> m = m'.
Proof.
  intros [Hin Hle] [Hin' Hle'].
  pose proof (Hle _ Hin'). pose proof (Hle' _ Hin). number_arith.
Qed.

Lemma greatest_unique (m m' : number) (xs : list number) :
  greatest m xs -> greatest m' xs -> m = m'.
Proof.
  intros [Hin Hle] [Hin' Hle'].
  pose proof (Hle _ Hin'). pose proof (Hle' _ Hin). number_arith.
Qed.

(** ** Arcs *)

Ltac east_cases :=
  unfold bounds.east in *;
  repeat match goal with
  | |- context [if ltb ?a ?b then _ else _] =>
      let E := fresh "E" in
      destruct (ltb a b) eqn:E; [apply ltb_spec in E | apply ltb_false in E]
  | |- context [if leb ?a ?b then _ else _] =>
      let E := fresh "E" in
      destruct (leb a b) eqn:E; [apply leb_spec in E | apply leb_false in E]
  | H : context [if ltb ?a ?b then _ else _] |- _ =>
      let E := fresh "E" in
      destruct (ltb a b) eqn:E; [apply ltb_spec in E | apply ltb_false in E]
  | H : context [if leb ?a ?b then _ else _] |- _ =>
      let E := fresh "E" in
      destruct (leb a b) eqn:E; [apply leb_spec in E | apply leb_false in E]
  end.

Lemma east_range (a b : number) :
  valid_longitude a -> valid_longitude b ->
  num 0 <= bounds.east a b /\ bounds.east a b < num 360.
Proof.
  unfold valid_longitude. intros [? ?] [? ?].
  east_cases; split; number_arith.
Qed.

Lemma east_forward (a b : number) :
  a <= b -> b - a < num 360 -> bounds.east a b = b - a.
Proof. intros ? ?. east_cases; number_arith. Qed.

Lemma east_wrap (a b : number) :
  b < a -> bounds.east a b = b - a + num 360.
Proof. intros ?. east_cases; number_arith. Qed.

(** Seen from [c], [a] comes before [l]: then the way from [a] to [l] is
    the rest of the way from [c] to [l]. *)
Lemma east_shift (c a l : number) :
  valid_longitude c -> valid_longitude a -> valid_longitude l ->
  bounds.east c a <= bounds.east c l ->
  bounds.east a l = bounds.east c l - bounds.east c a.
Proof.
  unfold valid_longitude. intros [? ?] [? ?] [? ?] ?.
  east_cases; number_arith.
Qed.

Lemma arc_end_spec (x : number) (xs : list number) (west : number) :
  In (bounds.arc_end x xs west) (x :: xs) /\
  arc_contains west (bounds.arc_end x xs west) (x :: xs).
Proof. exact (first_max_by_spec (bounds.east west) xs x). Qed.

Lemma longitude_bounds_spec (x : number) (xs : list number) :
  exists west,
    bounds.longitude_bounds (x :: xs)
    = Return (west, bounds.arc_end x xs west) /\
    In west (x :: xs) /\
    forall a, In a (x :: xs) ->
              bounds.arc_width x xs west <= bounds.arc_width x xs a.
Proof.
  exists (bounds.first_min_by (bounds.arc_width x xs) x xs).
  split; [reflexivity|].
  exact (first_min_by_spec (bounds.arc_width x xs) xs x).
Qed.

(** No arc that contains all the longitudes is narrower than the one
    [longitude_bounds] returns. *)
Lemma longitude_bounds_minimal (longitudes : list number) :
  longitudes <> [] ->
  Forall valid_longitude longitudes ->
  exists west east_end,
    bounds.longitude_bounds longitudes = Return (west, east_end) /\
    In west longitudes /\ In east_end longitudes /\
    arc_contains west east_end longitudes /\
    forall c d, valid_longitude c -> arc_contains c d longitudes ->
                bounds.east west east_end <= bounds.east c d.
Proof.
  intros Hne Hvalid. destruct longitudes as [|x xs]; [congruence|].
  rewrite Forall_forall in Hvalid.
  destruct (longitude_bounds_spec x xs) as (west & Hrun & Hwest & Hmin).
  destruct (arc_end_spec x xs west) as [Hend Hcontains].
  exists west, (bounds.arc_end x xs west).
  repeat split; try assumption.
  intros c d Hc Hcd.
  (* the first longitude met when going east from [c] *)
  destruct (first_min_by_spec (bounds.east c) xs x) as [Hin' Hfirst].
  set (a' := bounds.first_min_by (bounds.east c) x xs) in *.
  destruct (arc_end_spec x xs a') as [Hend' _].
  set (e' := bounds.arc_end x xs a') in *.
  pose proof (Hmin a' Hin') as Hle. unfold bounds.arc_width in Hle.
  fold e' in Hle.
  pose proof (east_shift c a' e' Hc (Hvalid _ Hin') (Hvalid _ Hend')
                (Hfirst _ Hend')) as Hshift.
  pose proof (east_range c a' Hc (Hvalid _ Hin')) as [Hpos _].
  pose proof (Hcd _ Hend') as Hcover.
  rewrite Hshift in Hle.
  clear - Hle Hpos Hcover. number_arith.
Qed.

(** Longitudes within less than a half turn of each other: the narrowest
    arc runs from the least to the greatest of them. *)
Lemma longitude_bounds_no_straddle (longitudes : list number) :
  longitudes <> [] ->
  no_straddle longitudes ->
  exists min_longitude max_longitude,
    bounds.longitude_bounds longitudes
    = Return (min_longitude, max_longitude) /\
    least min_longitude longitudes /\ greatest max_longitude longitudes.
Proof.
  intros Hne Hspan. destruct longitudes as [|x xs]; [congruence|].
  destruct (longitude_bounds_spec x xs) as (west & Hrun & Hwest & Hmin).
  destruct (py_min_least x xs) as [Hm Hleast].
  set (m := bounds.py_min x xs) in *.
  (* the arc that starts at the least longitude is less than a half turn *)
  assert (Hwidth : forall l, In l (x :: xs) -> bounds.east m l = l - m).
  { intros l Hl. apply east_forward; [now apply Hleast|].
    pose proof (Hspan m l Hm Hl). number_arith. }
  assert (Hm_narrow : bounds.arc_width x xs m < num 180).
  { unfold bounds.arc_width.
    destruct (arc_end_spec x xs m) as [He _].
    rewrite (Hwidth _ He). exact (Hspan _ _ Hm He). }
  (* an arc that starts anywhere else takes more than a half turn *)
  assert (Hwest_m : west = m).
  { destruct (Qclt_le_dec m west) as [Hlt | Hge].
    - exfalso.
      destruct (arc_end_spec x xs west) as [_ Hcontains].
      pose proof (Hcontains m Hm) as Hcover.
      rewrite (east_wrap west m Hlt) in Hcover.
      pose proof (Hmin m Hm) as Hle. unfold bounds.arc_width in Hle, Hm_narrow.
      pose proof (Hspan m west Hm Hwest).
      clear - Hcover Hle Hm_narrow H. number_arith.
    - pose proof (Hleast _ Hwest). clear - Hge H. number_arith. }
  subst west.
  destruct (arc_end_spec x xs m) as [He Hcontains].
  exists m, (bounds.arc_end x xs m). split; [exact Hrun|].
  split; [split; assumption|]. split; [assumption|].
  intros l Hl. pose proof (Hcontains l Hl) as Hcover.
  rewrite (Hwidth _ Hl), (Hwidth _ He) in Hcover.
  clear - Hcover. number_arith.
Qed.

(** ** The two layer classes *)

Lemma checks_has_coordinates (cls : layer_class) (p : tuple) :
  checks cls p = true -> (1 < List.length p)%nat.
Proof.
  destruct cls; simpl; intros H.
  - destruct (is_valid_point_pair p H) as (la & lo & -> & _). simpl. lia.
  - destruct (valid_weighted_prefix p H) as (la & lo & rest & -> & _).
    simpl. lia.
Qed.

Lemma class_assignment_outcome (cls : layer_class) (value : list tuple)
    (self : layer) :
  (Forall (fun q => checks cls q = true) value /\ data self = value /\
   setattr_data cls value self = (self, Return tt))
  \/ (Forall (fun q => checks cls q = true) value /\ data self <> value /\
      setattr_data cls value self
      = set_bounds value (put data_trait value self))
  \/ (exists p, first_offending (checks cls) value p /\
        setattr_data cls value self
        = (self, Raise (InvalidPointException p))).
Proof.
  destruct cls.
  - apply (assignment_outcome geotraitlets.is_valid_point
             Heatmap.for_point_in Heatmap._validate_data Heatmap._calc_bounds);
      reflexivity.
  - apply (assignment_outcome valid_weighted
             WeightedHeatmap.for_point_in WeightedHeatmap._validate_data
             WeightedHeatmap._calc_bounds);
      reflexivity.
Qed.

Lemma class_assignment_success (cls : layer_class) (value : list tuple)
    (self self' : layer) :
  setattr_data cls value self = (self', Return tt) ->
  Forall (fun q => checks cls q = true) value /\
  data self' = value /\
  (data self <> value -> bounds_of value (data_bounds self')) /\
  (data self = value -> self' = self).
Proof.
  destruct cls.
  - apply (assignment_success geotraitlets.is_valid_point
             Heatmap.for_point_in Heatmap._validate_data Heatmap._calc_bounds);
      reflexivity.
  - apply (assignment_success valid_weighted
             WeightedHeatmap.for_point_in WeightedHeatmap._validate_data
             WeightedHeatmap._calc_bounds);
      reflexivity.
Qed.

Lemma class_reachable_coherent (cls : layer_class) (self : layer) :
  reachable (setattr_data cls) self -> coherent self.
Proof.
  destruct cls.
  - apply (reachable_coherent geotraitlets.is_valid_point
             Heatmap.for_point_in Heatmap._validate_data Heatmap._calc_bounds);
      try reflexivity.
    exact (checks_has_coordinates HeatmapClass).
  - apply (reachable_coherent valid_weighted
             WeightedHeatmap.for_point_in WeightedHeatmap._validate_data
             WeightedHeatmap._calc_bounds);
      try reflexivity.
    exact (checks_has_coordinates WeightedHeatmapClass).
Qed.

Lemma class_assignment_of_valid_data (cls : layer_class) (value : list tuple)
    (self : layer) :
  coherent self ->
  value <> [] -> Forall (fun q => checks cls q = true) value ->
  exists self',
    setattr_data cls value self = (self', Return tt) /\
    data self' = value /\ bounds_of value (data_bounds self').
Proof.
  destruct cls.
  - apply (assignment_of_valid_data geotraitlets.is_valid_point
             Heatmap.for_point_in Heatmap._validate_data Heatmap._calc_bounds);
      try reflexivity.
    exact (checks_has_coordinates HeatmapClass).
  - apply (assignment_of_valid_data valid_weighted
             WeightedHeatmap.for_point_in WeightedHeatmap._validate_data
             WeightedHeatmap._calc_bounds);
      try reflexivity.
    exact (checks_has_coordinates WeightedHeatmapClass).
Qed.

Lemma class_validate_data (cls : layer_class) (self : layer)
    (value : list tuple) :
  validate_data cls self {| value := value |} = Return value
  <-> Forall (fun q => checks cls q = true) value.
Proof.
  assert (H : forall loop,
             loop [] = Return tt ->
             (forall point rest,
                loop (point :: rest)
                = if negb (checks cls point)
                  then Raise (InvalidPointException point) else loop rest) ->
             (match loop value with
              | Raise e => Raise e | Return _ => Return value end
              = Return value
              <-> Forall (fun q => checks cls q = true) value)).
  { intros loop Hnil Hcons.
    destruct (loop_outcome (checks cls) loop Hnil Hcons value)
      as [[-> Hall] | (p & -> & Hfirst)].
    - tauto.
    - split; [discriminate|]. intros Hall. exfalso.
      eapply first_offending_not_all; eassumption. }
  destruct cls.
  - apply (H Heatmap.for_point_in); reflexivity.
  - apply (H WeightedHeatmap.for_point_in); reflexivity.
Qed.

(** ** Validation of [data] *)

(** C1. When the proposed value of [data] holds an invalid point (for a
    [WeightedHeatmap]: a point whose first two components are not a valid
    pair), the assignment raises [InvalidPointException] with the first
    such point, and the layer is what it was: [data], [data_bounds] and all
    the rest are untouched. *)
Theorem invalid_data_is_rejected (cls : layer_class) (self : layer)
    (value : list tuple) :
  Exists (fun p => checks cls p = false) value ->
  exists p,
    first_offending (checks cls) value p /\
    setattr_data cls value self = (self, Raise (InvalidPointException p)) /\
    data (fst (setattr_data cls value self)) = data self /\
    data_bounds (fst (setattr_data cls value self)) = data_bounds self.
Proof.
  intros Hex.
  destruct (class_assignment_outcome cls value self)
    as [(Hall & _) | [(Hall & _) | (p & Hfirst & Hrun)]].
  - exfalso. rewrite Forall_forall in Hall. apply Exists_exists in Hex.
    destruct Hex as (q & Hq & Hbad). rewrite (Hall q Hq) in Hbad.
    discriminate.
  - exfalso. rewrite Forall_forall in Hall. apply Exists_exists in Hex.
    destruct Hex as (q & Hq & Hbad). rewrite (Hall q Hq) in Hbad.
    discriminate.
  - exists p. rewrite Hrun. auto.
Qed.

Lemma invalid_data_is_rejected_witness :
  let self := fst (setattr_data HeatmapClass example_data __init__) in
  let value := [ [num 46.1; num 5.2]; [num 200; num (-179)];
                 [num 300; num 0] ] in
  Exists (fun p => checks HeatmapClass p = false) value /\
  exists p,
    first_offending (checks HeatmapClass) value p /\
    setattr_data HeatmapClass value self
    = (self, Raise (InvalidPointException p)) /\
    data (fst (setattr_data HeatmapClass value self)) = data self /\
    data_bounds (fst (setattr_data HeatmapClass value self))
    = data_bounds self.
Proof.
  intros self value.
  assert (H : Exists (fun p => checks HeatmapClass p = false) value).
  { apply Exists_cons_tl, Exists_cons_hd. reflexivity. }
  split; [exact H|].
  exact (invalid_data_is_rejected HeatmapClass self value H).
Defined.

Lemma no_bounds_of_no_points : ~ exists b, bounds_of [] b.
Proof.
  intros (b & l1 & l2 & a1 & a2 & a3 & a4 & [= <-] & _ & H & _).
  discriminate.
Qed.

Lemma checks_coordinates (cls : layer_class) (p : tuple) :
  checks cls p = true ->
  exists latitude longitude rest,
    p = latitude :: longitude :: rest /\
    valid_latitude latitude /\ valid_longitude longitude.
Proof.
  destruct cls; simpl; intros H.
  - destruct (is_valid_point_pair p H) as (la & lo & -> & Hla & Hlo).
    exists la, lo, []. auto.
  - exact (valid_weighted_prefix p H).
Qed.

Lemma valid_points_valid_longitudes (cls : layer_class) (value : list tuple) :
  Forall (fun p => checks cls p = true) value ->
  forall longitudes,
    column 1 value = Return longitudes -> Forall valid_longitude longitudes.
Proof.
  induction 1 as [|p rest Hp _ IH]; simpl; intros longitudes.
  - intros [= <-]. constructor.
  - destruct (checks_coordinates cls p Hp) as (la & lo & more & -> & _ & Hlo).
    simpl. destruct (column 1 rest) as [lons|e]; [|discriminate].
    intros [= <-]. constructor; [exact Hlo | now apply IH].
Qed.

(** C3, as stated, fails: the empty list holds no invalid point, and yet
    assigning it to a layer that holds the data of the docstring raises.
    The list passes validation and is stored, the change is notified, and
    no bounds are defined for no points. *)
Lemma valid_data_assignment_can_raise :
  ~ (forall cls self value,
       (exists self', setattr_data cls value self = (self', Return tt))
       <-> Forall (fun p => checks cls p = true) value).
Proof.
  intros H.
  destruct (proj2 (H HeatmapClass
                     (fst (setattr_data HeatmapClass example_data __init__))
                     [])
              (Forall_nil _)) as (self' & Hrun).
  apply (f_equal snd) in Hrun. vm_compute in Hrun. discriminate Hrun.
Qed.

(** C3, amended. [_validate_data] hands the value back exactly when every
    point passes the class's test; an assignment is turned down with
    [InvalidPointException] exactly when some point fails it; an
    assignment of a non-empty list returns exactly when every point passes
    it; an assignment of the empty list, which holds no invalid point,
    returns exactly when the layer holds no data. The test of [Heatmap]
    is: a pair with latitude in [-90, 90] and longitude in [-180, 180]. The
    test of [WeightedHeatmap] is the same test on the first two components,
    whatever follows them. *)
Theorem data_accepted_iff_points_valid (cls : layer_class) (self : layer)
    (value : list tuple) :
  (validate_data cls self {| value := value |} = Return value
   <-> Forall (fun p => checks cls p = true) value)
  /\ ((exists p, setattr_data cls value self
                 = (self, Raise (InvalidPointException p)))
      <-> ~ Forall (fun p => checks cls p = true) value)
  /\ (value <> [] ->
      ((exists self', setattr_data cls value self = (self', Return tt))
       <-> Forall (fun p => checks cls p = true) value))
  /\ (value = [] ->
      ((exists self', setattr_data cls value self = (self', Return tt))
       <-> data self = []))
  /\ (forall latitude longitude,
        checks HeatmapClass [latitude; longitude] = true
        <-> valid_latitude latitude /\ valid_longitude longitude)
  /\ (forall latitude longitude weights,
        checks WeightedHeatmapClass (latitude :: longitude :: weights)
        = checks HeatmapClass [latitude; longitude])
  /\ checks WeightedHeatmapClass [num 46.1; num 5.2; num 0.5]
     = checks HeatmapClass [num 46.1; num 5.2]
  /\ checks HeatmapClass [num 46.1; num 5.2] = true.
Proof.
  split; [apply class_validate_data|].
  split.
  { destruct (class_assignment_outcome cls value self)
      as [(Hall & _ & Hrun) | [(Hall & _ & Hrun) | (p & Hfirst & Hrun)]].
    - split; [|tauto]. intros (p & Hp). rewrite Hrun in Hp. discriminate.
    - split; [|tauto]. intros (p & Hp). exfalso.
      apply (set_bounds_no_InvalidPoint value (put data_trait value self) p).
      rewrite <- Hrun, Hp. reflexivity.
    - split; [|eauto]. intros _.
      eapply first_offending_not_all; eassumption. }
  split.
  { intros Hne. split.
    - intros (self' & Hrun).
      now destruct (class_assignment_success cls value self self' Hrun).
    - intros Hall.
      destruct (class_assignment_outcome cls value self)
        as [(_ & _ & Hrun) | [(_ & _ & Hrun) | (p & Hfirst & _)]].
      + eauto.
      + rewrite Hrun.
        destruct (set_bounds_outcome value (put data_trait value self))
          as [(b & _ & ->) | (Hnone & _)]; [eauto|].
        exfalso. apply Hnone, bounds_of_defined; [assumption|].
        eapply Forall_impl; [|exact Hall].
        exact (checks_has_coordinates cls).
      + exfalso. eapply first_offending_not_all; eassumption. }
  split.
  { intros ->. split.
    - intros (self' & Hrun).
      destruct (class_assignment_success cls [] self self' Hrun)
        as (_ & _ & Hnew & _).
      destruct (data self) as [|p rest] eqn:E; [reflexivity|].
      exfalso. apply no_bounds_of_no_points.
      exists (data_bounds self'). apply Hnew. discriminate.
    - intros Hempty.
      destruct (class_assignment_outcome cls [] self)
        as [(_ & _ & Hrun) | [(_ & Hdiff & _) | (p & Hfirst & _)]].
      + eauto.
      + contradiction.
      + exfalso. eapply first_offending_not_all; [eassumption|constructor]. }
  split; [exact is_valid_point_iff|].
  repeat split.
Qed.

Lemma data_accepted_iff_points_valid_witness :
  ((exists self',
      setattr_data WeightedHeatmapClass example_weighted_data __init__
      = (self', Return tt))
   <-> Forall (fun p => checks WeightedHeatmapClass p = true)
              example_weighted_data)
  /\ ((exists self', setattr_data HeatmapClass [] __init__ = (self', Return tt))
      <-> data __init__ = []).
Proof.
  split.
  - apply (data_accepted_iff_points_valid WeightedHeatmapClass __init__
             example_weighted_data).
    discriminate.
  - apply (data_accepted_iff_points_valid HeatmapClass __init__ []).
    reflexivity.
Defined.

(** C4. A [WeightedHeatmap] takes a triple with a negative weight: the
    loop of [_validate_data] looks at [point[:2]] only, and no weight is
    ever checked. The assignment of [[(46.1, 5.2, -1)]] returns and the
    triple is stored. *)
Theorem negative_weight_is_accepted :
  exists self',
    setattr_data WeightedHeatmapClass [ [num 46.1; num 5.2; num (-1)] ]
      __init__
    = (self', Return tt) /\
    data self' = [ [num 46.1; num 5.2; num (-1)] ] /\
    data_bounds self' = [ [num 46.1; num 5.2]; [num 46.1; num 5.2] ].
Proof. eexists. repeat split. Qed.

(** ** Bounds after an assignment to [data] *)

(** C2, as stated, fails: on a layer built without arguments the
    assignment [layer.data = []] returns, the value equals the current one,
    no change is notified, and [data_bounds] stays [[]], which is not a
    pair of corners. *)
Lemma bounds_not_recomputed_on_equal_data :
  ~ (forall cls self value self',
       setattr_data cls value self = (self', Return tt) ->
       exists min_latitude min_longitude max_latitude max_longitude,
         data_bounds self'
         = [ [min_latitude; min_longitude];
             [max_latitude; max_longitude] ]).
Proof.
  intros H.
  destruct (H HeatmapClass __init__ [] __init__ eq_refl)
    as (a & b & c & d & Hb).
  discriminate Hb.
Qed.

(** C2, amended. A successful assignment stores the value. When the value
    differs from the current [data], [data_bounds] is recomputed in the
    same call and holds the two corners that the latitude and longitude
    bounds functions produce on the new data; when it equals the current
    [data], nothing is notified and [data_bounds] is kept. On a layer that
    has only gone through assignments to [data] and to the option fields,
    [data_bounds] therefore matches the new data after every successful
    assignment of a non-empty list, and a successful assignment of the empty
    list leaves [data_bounds] as it was. *)
Theorem bounds_follow_data (cls : layer_class) (self self' : layer)
    (value : list tuple) :
  setattr_data cls value self = (self', Return tt) ->
  data self' = value /\
  (data self <> value -> bounds_of value (data_bounds self')) /\
  (data self = value -> data_bounds self' = data_bounds self) /\
  (reachable (setattr_data cls) self ->
     (value <> [] -> bounds_of value (data_bounds self')) /\
     (value = [] -> data_bounds self' = data_bounds self)).
Proof.
  intros Hrun.
  destruct (class_assignment_success cls value self self' Hrun)
    as (Hall & Hdata & Hnew & Hsame).
  assert (Hempty : ~ exists b, bounds_of [] b).
  { intros (b & l1 & l2 & a1 & a2 & a3 & a4 & [= <-] & _ & H & _).
    discriminate. }
  repeat split; auto.
  - intros E. now rewrite (Hsame E).
  - intros Hne.
    destruct (list_eq_dec (list_eq_dec Qc_eq_dec) (data self) value)
      as [E | Hdiff]; [|auto].
    rewrite (Hsame E).
    destruct (class_reachable_coherent cls self H) as [Hnone | Hb];
      congruence.
  - intros ->.
    destruct (list_eq_dec (list_eq_dec Qc_eq_dec) (data self) [])
      as [E | Hdiff]; [now rewrite (Hsame E)|].
    exfalso. apply Hempty. eauto.
Qed.

Lemma bounds_follow_data_witness :
  let self' := fst (setattr_data HeatmapClass example_data __init__) in
  setattr_data HeatmapClass example_data __init__ = (self', Return tt) /\
  data self' = example_data /\
  bounds_of example_data (data_bounds self') /\
  data_bounds self' = [ [num 46.1; num 5.2]; [num 46.3; num 5.4] ].
Proof.
  intros self'.
  assert (Hrun : setattr_data HeatmapClass example_data __init__
                 = (self', Return tt)) by reflexivity.
  destruct (bounds_follow_data HeatmapClass __init__ self' example_data Hrun)
    as (Hdata & Hnew & _).
  repeat split; auto.
  apply Hnew. discriminate.
Defined.

(** C8. On a layer that has only gone through assignments to [data] and
    to the option fields, assigning a non-empty list of valid points whose
    longitudes do not straddle the antimeridian returns, and [data_bounds]
    holds the corner of the least latitude and least longitude and the
    corner of the greatest latitude and greatest longitude. For the data
    of the docstring the corners are (46.1, 5.2) and (46.3, 5.4). *)
Theorem bounds_are_exact_min_max :
  (forall cls self value latitudes longitudes,
     reachable (setattr_data cls) self ->
     value <> [] ->
     Forall (fun p => checks cls p = true) value ->
     column 0 value = Return latitudes ->
     column 1 value = Return longitudes ->
     no_straddle longitudes ->
     exists self' min_latitude min_longitude max_latitude max_longitude,
       setattr_data cls value self = (self', Return tt) /\
       data self' = value /\
       data_bounds self'
       = [ [min_latitude; min_longitude]; [max_latitude; max_longitude] ] /\
       least min_latitude latitudes /\ greatest max_latitude latitudes /\
       least min_longitude longitudes /\ greatest max_longitude longitudes)
  /\ (forall self,
        reachable (setattr_data HeatmapClass) self ->
        exists self',
          setattr_data HeatmapClass example_data self = (self', Return tt) /\
          data_bounds self'
          = [ [num 46.1; num 5.2]; [num 46.3; num 5.4] ]).
Proof.
  assert (General : forall cls self value latitudes longitudes,
     reachable (setattr_data cls) self ->
     value <> [] ->
     Forall (fun p => checks cls p = true) value ->
     column 0 value = Return latitudes ->
     column 1 value = Return longitudes ->
     no_straddle longitudes ->
     exists self' min_latitude min_longitude max_latitude max_longitude,
       setattr_data cls value self = (self', Return tt) /\
       data self' = value /\
       data_bounds self'
       = [ [min_latitude; min_longitude]; [max_latitude; max_longitude] ] /\
       least min_latitude latitudes /\ greatest max_latitude latitudes /\
       least min_longitude longitudes /\ greatest max_longitude longitudes).
  { intros cls self value latitudes longitudes Hreach Hne Hall H0 H1 Hspan.
    destruct (class_assignment_of_valid_data cls value self
                (class_reachable_coherent cls self Hreach) Hne Hall)
      as (self' & Hrun & Hdata & Hb).
    destruct Hb as (lats & lons & a & b & c & d & K0 & K1 & Hla & Hlo & Hb).
    rewrite H0 in K0. injection K0 as <-.
    rewrite H1 in K1. injection K1 as <-.
    assert (Hlons : longitudes <> []).
    { intros ->. discriminate Hlo. }
    destruct (longitude_bounds_no_straddle longitudes Hlons Hspan)
      as (c' & d' & Hlo' & Hc & Hd).
    rewrite Hlo in Hlo'. injection Hlo' as <- <-.
    destruct latitudes as [|x lats]; [discriminate Hla|].
    simpl in Hla. injection Hla as <- <-.
    exists self', (bounds.py_min x lats), c, (bounds.py_max x lats), d.
    repeat split; try assumption;
      try apply py_min_least; try apply py_max_greatest;
      try apply Hc; try apply Hd. }
  split; [exact General|].
  intros self Hreach.
  destruct (General HeatmapClass self example_data
              [num 46.1; num 46.2; num 46.3] [num 5.2; num 5.3; num 5.4]
              Hreach)
    as (self' & a & c & b & d & Hrun & _ & Hb & Ha & Hb' & Hc & Hd);
    try reflexivity.
  - discriminate.
  - repeat constructor.
  - intros u v Hu Hv. simpl in Hu, Hv.
    repeat match goal with
    | H : _ \/ _ |- _ => destruct H as [<- | H]
    | H : False |- _ => destruct H
    end; number_arith.
  - exists self'. split; [exact Hrun|]. rewrite Hb.
    assert (a = num 46.1) as ->.
    { apply (least_unique _ _ _ Ha). split; [simpl; auto|].
      intros u Hu. simpl in Hu.
      repeat match goal with
      | H : _ \/ _ |- _ => destruct H as [<- | H]
      | H : False |- _ => destruct H
      end; number_arith. }
    assert (b = num 46.3) as ->.
    { apply (greatest_unique _ _ _ Hb'). split; [simpl; auto|].
      intros u Hu. simpl in Hu.
      repeat match goal with
      | H : _ \/ _ |- _ => destruct H as [<- | H]
      | H : False |- _ => destruct H
      end; number_arith. }
    assert (c = num 5.2) as ->.
    { apply (least_unique _ _ _ Hc). split; [simpl; auto|].
      intros u Hu. simpl in Hu.
      repeat match goal with
      | H : _ \/ _ |- _ => destruct H as [<- | H]
      | H : False |- _ => destruct H
      end; number_arith. }
    assert (d = num 5.4) as ->.
    { apply (greatest_unique _ _ _ Hd). split; [simpl; auto|].
      intros u Hu. simpl in Hu.
      repeat match goal with
      | H : _ \/ _ |- _ => destruct H as [<- | H]
      | H : False |- _ => destruct H
      end; number_arith. }
    reflexivity.
Qed.

Lemma bounds_are_exact_min_max_witness :
  let value := [ [num 10; num (-30); num 2]; [num (-5); num 40; num 1] ] in
  value <> [] /\
  Forall (fun p => checks WeightedHeatmapClass p = true) value /\
  no_straddle [num (-30); num 40] /\
  exists self' min_latitude min_longitude max_latitude max_longitude,
    setattr_data WeightedHeatmapClass value __init__ = (self', Return tt) /\
    data self' = value /\
    data_bounds self'
    = [ [min_latitude; min_longitude]; [max_latitude; max_longitude] ] /\
    least min_latitude [num 10; num (-5)] /\
    greatest max_latitude [num 10; num (-5)] /\
    least min_longitude [num (-30); num 40] /\
    greatest max_longitude [num (-30); num 40].
Proof.
  intros value.
  assert (Hne : value <> []) by discriminate.
  assert (Hall : Forall (fun p => checks WeightedHeatmapClass p = true) value).
  { repeat constructor. }
  assert (Hspan : no_straddle [num (-30); num 40]).
  { intros u v Hu Hv. simpl in Hu, Hv.
    destruct Hu as [<- | [<- | []]]; destruct Hv as [<- | [<- | []]];
      vm_compute; reflexivity. }
  repeat (split; [assumption|]).
  exact (proj1 bounds_are_exact_min_max WeightedHeatmapClass __init__ value
           [num 10; num (-5)] [num (-30); num 40]
           (reach_init _) Hne Hall eq_refl eq_refl Hspan).
Defined.

(** C9. The longitude component of the bounds is a narrowest arc.
    [_longitude_bounds] returns a west end and an east end among the
    longitudes such that the arc from the one eastwards to the other
    contains all the longitudes and no arc that contains them all is
    narrower; and after an assignment of valid points to [data] the two
    longitudes held by [data_bounds] are such a pair for the longitudes of
    the points. For the longitudes 179 and -179, in either order, the arc
    runs from 179 eastwards across the antimeridian to -179 and is 2 wide;
    the arc from -179 to 179 would be 358 wide. *)
Theorem longitude_bounds_narrowest_arc :
  (forall longitudes,
     longitudes <> [] ->
     Forall valid_longitude longitudes ->
     exists west east_end,
       _longitude_bounds longitudes = Return (west, east_end) /\
       In west longitudes /\ In east_end longitudes /\
       arc_contains west east_end longitudes /\
       forall c d, valid_longitude c -> arc_contains c d longitudes ->
                   bounds.east west east_end <= bounds.east c d)
  /\ (forall cls self value longitudes,
        reachable (setattr_data cls) self ->
        value <> [] ->
        Forall (fun p => checks cls p = true) value ->
        column 1 value = Return longitudes ->
        exists self' min_latitude west max_latitude east_end,
          setattr_data cls value self = (self', Return tt) /\
          data_bounds self'
          = [ [min_latitude; west]; [max_latitude; east_end] ] /\
          In west longitudes /\ In east_end longitudes /\
          arc_contains west east_end longitudes /\
          forall c d, valid_longitude c -> arc_contains c d longitudes ->
                      bounds.east west east_end <= bounds.east c d)
  /\ _longitude_bounds [num 179; num (-179)] = Return (num 179, num (-179))
  /\ _longitude_bounds [num (-179); num 179] = Return (num 179, num (-179))
  /\ bounds.east (num 179) (num (-179)) = num 2
  /\ bounds.east (num (-179)) (num 179) = num 358
  /\ (exists self',
        setattr_data HeatmapClass
          [ [num 10; num 179]; [num 20; num (-179)] ] __init__
        = (self', Return tt) /\
        data_bounds self'
        = [ [num 10; num 179]; [num 20; num (-179)] ])
  /\ (exists self',
        setattr_data HeatmapClass
          [ [num 10; num (-179)]; [num 20; num 179] ] __init__
        = (self', Return tt) /\
        data_bounds self'
        = [ [num 10; num 179]; [num 20; num (-179)] ]).
Proof.
  split; [exact longitude_bounds_minimal|].
  split.
  { intros cls self value longitudes Hreach Hne Hall H1.
    destruct (class_assignment_of_valid_data cls value self
                (class_reachable_coherent cls self Hreach) Hne Hall)
      as (self' & Hrun & _ & Hb).
    destruct Hb as (lats & lons & a & b & c & d & _ & K1 & _ & Hlo & Hb).
    rewrite H1 in K1. injection K1 as <-.
    assert (Hlons : longitudes <> []).
    { intros ->. discriminate Hlo. }
    destruct (longitude_bounds_minimal longitudes Hlons
                (valid_points_valid_longitudes cls value Hall _ H1))
      as (west & east_end & Hlo' & Hrest).
    rewrite Hlo in Hlo'. injection Hlo' as -> ->.
    exists self', a, west, b, east_end. auto. }
  split; [reflexivity|].
  split; [reflexivity|].
  split; [vm_compute; reflexivity|].
  split; [vm_compute; reflexivity|].
  split; eexists; split; reflexivity.
Qed.

Lemma longitude_bounds_narrowest_arc_witness :
  let value := [ [num 10; num (-179)]; [num 20; num 179] ] in
  let longitudes := [num (-179); num 179] in
  value <> [] /\
  Forall (fun p => checks HeatmapClass p = true) value /\
  exists self' min_latitude west max_latitude east_end,
    setattr_data HeatmapClass value __init__ = (self', Return tt) /\
    data_bounds self'
    = [ [min_latitude; west]; [max_latitude; east_end] ] /\
    In west longitudes /\ In east_end longitudes /\
    arc_contains west east_end longitudes /\
    forall c d, valid_longitude c -> arc_contains c d longitudes ->
                bounds.east west east_end <= bounds.east c d.
Proof.
  intros value longitudes.
  assert (Hne : value <> []) by discriminate.
  assert (Hall : Forall (fun p => checks HeatmapClass p = true) value).
  { repeat constructor. }
  repeat (split; [assumption|]).
  exact (proj1 (proj2 longitude_bounds_narrowest_arc) HeatmapClass __init__
           value longitudes (reach_init _) Hne Hall eq_refl).
Defined.

(** ** The option fields *)

(** C5. Nothing bounds [max_intensity]: the trait is declared without
    [min], so every number, zero and the negative ones included, is stored
    and the assignment returns. *)
Theorem max_intensity_takes_any_number (self : layer) (v : float_value) :
  setattr_max_intensity v self
  = (put max_intensity_trait v self, Return tt)
  /\ max_intensity (fst (setattr_max_intensity v self)) = v
  /\ max_intensity (fst (setattr_max_intensity (Some (num 0)) __init__))
     = Some (num 0)
  /\ snd (setattr_max_intensity (Some (num (-1))) __init__) = Return tt.
Proof.
  assert (H : setattr_max_intensity v self
              = (put max_intensity_trait v self, Return tt)).
  { unfold setattr_max_intensity, set, no_validator, no_observer, ret.
    destruct v as [x|]; simpl;
      destruct (option_eqb number_eqb (max_intensity self) _); reflexivity. }
  rewrite H. repeat split.
Qed.

(** C6. An [opacity] below 0 or above 1 is turned down with a
    [TraitError] and the layer keeps the opacity it had: the value is not
    clamped. An [opacity] within [0, 1] is stored as it is. *)
Theorem opacity_is_checked_not_clamped (self : layer) (v : number) :
  (v < num 0 \/ num 1 < v ->
   setattr_opacity (Some v) self = (self, Raise (TraitError "opacity")))
  /\ (num 0 <= v /\ v <= num 1 ->
      setattr_opacity (Some v) self
      = (put opacity_trait (Some v) self, Return tt) /\
      opacity (fst (setattr_opacity (Some v) self)) = Some v).
Proof.
  unfold setattr_opacity, set, no_validator, no_observer, ret. simpl.
  split.
  - intros Hout.
    destruct (ltb v (num 0.0)) eqn:E0; [reflexivity|].
    destruct (ltb (num 1.0) v) eqn:E1; [reflexivity|].
    exfalso. destruct Hout; number_arith.
  - intros [H0 H1].
    destruct (ltb v (num 0.0)) eqn:E0; [exfalso; number_arith|].
    destruct (ltb (num 1.0) v) eqn:E1; [exfalso; number_arith|].
    simpl. destruct (option_eqb number_eqb (opacity self) (Some v));
      split; reflexivity.
Qed.

Lemma opacity_is_checked_not_clamped_witness :
  (num 1 < num 1.5 /\
   setattr_opacity (Some (num 1.5)) __init__
   = (__init__, Raise (TraitError "opacity")))
  /\ (num 0 <= num 0.25 /\ num 0.25 <= num 1 /\
      opacity (fst (setattr_opacity (Some (num 0.25)) __init__))
      = Some (num 0.25)).
Proof.
  assert (Hout : num 1 < num 1.5) by (vm_compute; reflexivity).
  assert (H0 : num 0 <= num 0.25) by (vm_compute; discriminate).
  assert (H1 : num 0.25 <= num 1) by (vm_compute; discriminate).
  split.
  - split; [exact Hout|].
    exact (proj1 (opacity_is_checked_not_clamped __init__ (num 1.5))
             (or_intror Hout)).
  - repeat (split; [assumption|]).
    exact (proj2 (proj2 (opacity_is_checked_not_clamped __init__ (num 0.25))
                    (conj H0 H1))).
Defined.

(** C7. A layer of either class built without arguments has
    [dissipating = True], [opacity = 0.6], [max_intensity = None] and
    [gradient = None]. *)
Theorem fresh_layer_defaults :
  dissipating __init__ = true /\
  opacity __init__ = Some (num 0.6) /\
  max_intensity __init__ = None /\
  gradient __init__ = None.
Proof. repeat split. Qed.

(** C10. An assignment to [max_intensity], [point_radius], [dissipating],
    [opacity] or [gradient], accepted or turned down, leaves [data] and
    [data_bounds] as they were. *)
Theorem option_assignments_keep_data_and_bounds (self : layer) :
  (forall v,
     data (fst (setattr_max_intensity v self)) = data self /\
     data_bounds (fst (setattr_max_intensity v self)) = data_bounds self)
  /\ (forall v,
        data (fst (setattr_point_radius v self)) = data self /\
        data_bounds (fst (setattr_point_radius v self)) = data_bounds self)
  /\ (forall v,
        data (fst (setattr_dissipating v self)) = data self /\
        data_bounds (fst (setattr_dissipating v self)) = data_bounds self)
  /\ (forall v,
        data (fst (setattr_opacity v self)) = data self /\
        data_bounds (fst (setattr_opacity v self)) = data_bounds self)
  /\ (forall v,
        data (fst (setattr_gradient v self)) = data self /\
        data_bounds (fst (setattr_gradient v self)) = data_bounds self).
Proof.
  repeat split;
    first [ now apply (option_assignment_frame max_intensity_trait)
          | now apply (option_assignment_frame point_radius_trait)
          | now apply (option_assignment_frame dissipating_trait)
          | now apply (option_assignment_frame opacity_trait)
          | now apply (option_assignment_frame gradient_trait) ].
Qed.

(** ** More on the option fields *)

(** X1. An empty [gradient] is turned down with a [TraitError] and the layer
    stays as it was ([minlen=1]); [None] is taken and stored
    ([allow_none=True]). *)
Theorem gradient_empty_rejected_none_accepted (self : layer) :
  setattr_gradient (Some []) self = (self, Raise (TraitError "gradient"))
  /\ setattr_gradient None self = (put gradient_trait None self, Return tt)
  /\ gradient (fst (setattr_gradient None self)) = None.
Proof.
  unfold setattr_gradient, set, no_validator, no_observer, ret. simpl.
  split; [reflexivity|].
  destruct (gradient self); simpl; split; reflexivity.
Qed.

(** X2. [opacity] cannot be set to [None]: the assignment raises [TraitError]
    and the layer stays as it was. [max_intensity] and [point_radius],
    declared with [allow_none=True], take [None] and store it. *)
Theorem none_only_where_allowed (self : layer) :
  setattr_opacity None self = (self, Raise (TraitError "opacity"))
  /\ setattr_max_intensity None self
     = (put max_intensity_trait None self, Return tt)
  /\ setattr_point_radius None self
     = (put point_radius_trait None self, Return tt).
Proof.
  unfold setattr_opacity, setattr_max_intensity, setattr_point_radius,
    set, no_validator, no_observer, ret. simpl.
  split; [reflexivity|].
  destruct (max_intensity self), (point_radius self); simpl;
    split; reflexivity.
Qed.








(** ** More on [set_bounds] *)

Lemma column_raises_IndexError (i : nat) (d : list tuple) (e : exn) :
  column i d = Raise e -> e = IndexError.
Proof.
  revert e. induction d as [|row rest IH]; simpl; [discriminate|].
  intros e. unfold getitem. destruct (nth_error row i).
  - destruct (column i rest) as [xs|e']; [discriminate|].
    intros [= <-]. now apply IH.
  - now intros [= <-].
Qed.

Lemma column_short_row (i : nat) (d : list tuple) :
  Exists (fun row => (List.length row <= i)%nat) d ->
  column i d = Raise IndexError.
Proof.
  induction 1 as [row rest Hrow | row rest _ IH]; simpl; unfold getitem.
  - apply nth_error_None in Hrow. now rewrite Hrow.
  - destruct (nth_error row i); [|reflexivity]. now rewrite IH.
Qed.

Lemma column_firstn (i : nat) (d : list tuple) :
  (i < 2)%nat -> column i (map (firstn 2) d) = column i d.
Proof.
  intros Hi. induction d as [|row rest IH]; [reflexivity|].
  cbn [map column]. unfold getitem. rewrite nth_error_firstn.
  apply PeanoNat.Nat.ltb_lt in Hi. rewrite Hi, IH. reflexivity.
Qed.

(** What [set_bounds] returns or raises depends on the data only, and so
    do the bounds it stores. *)
Lemma set_bounds_independent (d : list tuple) (s1 s2 : layer) :
  snd (set_bounds d s1) = snd (set_bounds d s2) /\
  (snd (set_bounds d s1) = Return tt ->
   data_bounds (fst (set_bounds d s1)) = data_bounds (fst (set_bounds d s2)))
  /\ (forall e, snd (set_bounds d s1) = Raise e -> fst (set_bounds d s1) = s1).
Proof.
  unfold set_bounds, bind, lift, _latitude_bounds, _longitude_bounds.
  destruct (column 0 d); [|repeat split; discriminate].
  destruct (column 1 d); [|repeat split; discriminate].
  destruct (bounds.latitude_bounds a) as [[? ?]|]; [|repeat split; discriminate].
  destruct (bounds.longitude_bounds a0) as [[? ?]|];
    [|repeat split; discriminate].
  rewrite !setattr_data_bounds_stores. simpl.
  repeat split. discriminate.
Qed.

Lemma set_bounds_firstn (d : list tuple) (self : layer) :
  set_bounds (map (firstn 2) d) self = set_bounds d self.
Proof.
  unfold set_bounds, bind, lift.
  rewrite !column_firstn by lia. reflexivity.
Qed.

(** X4. [set_bounds] reads the first two components of each row and nothing
    else: cutting every row to two components changes neither what it
    returns nor what it stores. The weights of a [WeightedHeatmap] have no
    part in its bounds. *)
Theorem set_bounds_reads_first_two_components (d : list tuple)
    (self : layer) :
  set_bounds (map (firstn 2) d) self = set_bounds d self /\
  column 0 (map (firstn 2) d) = column 0 d /\
  column 1 (map (firstn 2) d) = column 1 d.
Proof.
  split; [apply set_bounds_firstn|].
  split; apply column_firstn; lia.
Qed.

(** X5. A row with fewer than two components makes [set_bounds] raise
    [IndexError], and the layer stays as it was. *)
Theorem set_bounds_short_row (d : list tuple) (self : layer) :
  Exists (fun row => (List.length row < 2)%nat) d ->
  set_bounds d self = (self, Raise IndexError).
Proof.
  intros Hshort.
  assert (H1 : column 1 d = Raise IndexError).
  { apply column_short_row. eapply Exists_impl; [|exact Hshort].
    simpl. intros; lia. }
  unfold set_bounds, bind, lift.
  destruct (column 0 d) as [lats|e] eqn:E0.
  - rewrite H1. reflexivity.
  - now rewrite (column_raises_IndexError 0 d e E0).
Qed.

Lemma set_bounds_short_row_witness :
  Exists (fun row => (List.length row < 2)%nat)
         [ [num 46.1; num 5.2]; [num 46.2] ] /\
  set_bounds [ [num 46.1; num 5.2]; [num 46.2] ] __init__
  = (__init__, Raise IndexError).
Proof.
  assert (H : Exists (fun row => (List.length row < 2)%nat)
                     [ [num 46.1; num 5.2]; [num 46.2] ]).
  { apply Exists_cons_tl, Exists_cons_hd. simpl. lia. }
  split; [exact H|].
  exact (set_bounds_short_row _ __init__ H).
Defined.

(** X6. [set_bounds] writes [data_bounds] and nothing else, and running it
    again on the same data changes nothing more. *)
Theorem set_bounds_frame_and_idempotence (d : list tuple) (self : layer) :
  let self' := fst (set_bounds d self) in
  max_intensity self' = max_intensity self /\
  point_radius self' = point_radius self /\
  dissipating self' = dissipating self /\
  opacity self' = opacity self /\
  gradient self' = gradient self /\
  data self' = data self /\
  set_bounds d self' = (self', snd (set_bounds d self)).
Proof.
  intros self'. subst self'.
  destruct (set_bounds_outcome d self) as [(b & Hb & E) | (Hnone & E)].
  - rewrite E. cbn [fst snd]. repeat (split; [reflexivity|]).
    destruct (set_bounds_outcome d (put data_bounds_trait b self))
      as [(b' & Hb' & E') | (Hnone & _)].
    + rewrite E'. rewrite (bounds_of_unique d b' b Hb' Hb). reflexivity.
    + exfalso. apply Hnone. eauto.
  - destruct E as [E | E]; rewrite E; cbn [fst snd];
      repeat (split; [reflexivity|]); exact E.
Qed.

(** ** More on assignments to [data] *)

(** X7. An assignment to [data], whether it returns or raises, leaves the five
    option fields as they were. *)
Theorem data_assignment_keeps_options (cls : layer_class) (self : layer)
    (value : list tuple) :
  let self' := fst (setattr_data cls value self) in
  max_intensity self' = max_intensity self /\
  point_radius self' = point_radius self /\
  dissipating self' = dissipating self /\
  opacity self' = opacity self /\
  gradient self' = gradient self.
Proof.
  intros self'. subst self'.
  destruct (class_assignment_outcome cls value self)
    as [(_ & _ & ->) | [(_ & _ & ->) | (p & _ & ->)]];
    try (repeat split; reflexivity).
  destruct (set_bounds_outcome value (put data_trait value self))
    as [(b & _ & ->) | (_ & [-> | ->])]; repeat split; reflexivity.
Qed.

(** X8. Once a list of valid points has been assigned, whatever came of it,
    assigning it again returns and changes nothing: the value is already
    stored, so no change is notified and the bounds are not computed. *)
Theorem repeated_assignment_is_silent (cls : layer_class) (self : layer)
    (value : list tuple) :
  Forall (fun p => checks cls p = true) value ->
  let self' := fst (setattr_data cls value self) in
  data self' = value /\
  setattr_data cls value self' = (self', Return tt).
Proof.
  intros Hall self'.
  assert (Hdata : data self' = value).
  { subst self'.
    destruct (class_assignment_outcome cls value self)
      as [(_ & Hsame & ->) | [(_ & _ & ->) | (p & Hfirst & _)]].
    - exact Hsame.
    - now rewrite set_bounds_keeps_data.
    - exfalso. eapply first_offending_not_all; eassumption. }
  split; [exact Hdata|].
  destruct (class_assignment_outcome cls value self')
    as [(_ & _ & E) | [(_ & Hdiff & _) | (p & Hfirst & _)]].
  - exact E.
  - contradiction.
  - exfalso. eapply first_offending_not_all; eassumption.
Qed.

Lemma repeated_assignment_is_silent_witness :
  let self := fst (setattr_data HeatmapClass example_data __init__) in
  let self' := fst (setattr_data HeatmapClass [] self) in
  Forall (fun p => checks HeatmapClass p = true) [] /\
  snd (setattr_data HeatmapClass [] self) = Raise ValueError /\
  data self' = [] /\
  setattr_data HeatmapClass [] self' = (self', Return tt).
Proof.
  intros self self'.
  split; [constructor|]. split; [reflexivity|].
  exact (repeated_assignment_is_silent HeatmapClass self []
           (Forall_nil _)).
Defined.

(** X9. When [set_bounds] raises on a new list of valid points, the assignment
    raises the same exception after the list has been stored: [data] is
    the new list, while [data_bounds] and the options are what they
    were. *)
Theorem failed_recomputation_keeps_new_data (cls : layer_class)
    (self : layer) (value : list tuple) (e : exn) :
  Forall (fun p => checks cls p = true) value ->
  data self <> value ->
  snd (set_bounds value self) = Raise e ->
  setattr_data cls value self = (put data_trait value self, Raise e).
Proof.
  intros Hall Hdiff Hraise.
  destruct (class_assignment_outcome cls value self)
    as [(_ & Hsame & _) | [(_ & _ & ->) | (p & Hfirst & _)]].
  - contradiction.
  - destruct (set_bounds_independent value (put data_trait value self) self)
      as (Hsnd & _ & Hfst).
    rewrite Hraise in Hsnd.
    rewrite (surjective_pairing (set_bounds value (put data_trait value self))).
    rewrite Hsnd, (Hfst e Hsnd). reflexivity.
  - exfalso. eapply first_offending_not_all; eassumption.
Qed.

Lemma failed_recomputation_keeps_new_data_witness :
  let self := fst (setattr_data HeatmapClass example_data __init__) in
  data self <> [] /\
  snd (set_bounds [] self) = Raise ValueError /\
  setattr_data HeatmapClass [] self
  = (put data_trait [] self, Raise ValueError) /\
  data_bounds (put data_trait [] self)
  = [ [num 46.1; num 5.2]; [num 46.3; num 5.4] ].
Proof.
  intros self.
  assert (Hdiff : data self <> []) by discriminate.
  assert (Hraise : snd (set_bounds [] self) = Raise ValueError)
    by reflexivity.
  repeat (split; [assumption|]).
  split; [|reflexivity].
  exact (failed_recomputation_keeps_new_data HeatmapClass self []
           ValueError (Forall_nil _) Hdiff Hraise).
Defined.

(** X10. [data_bounds] is an ordinary writable trait: an assignment to it is
    taken as it is, and assigning the current data again afterwards
    returns without computing the bounds anew. *)
Theorem overwritten_bounds_are_not_restored (cls : layer_class)
    (self : layer) (b : list tuple) :
  Forall (fun p => checks cls p = true) (data self) ->
  let self' := fst (setattr_data_bounds b self) in
  setattr_data_bounds b self = (self', Return tt) /\
  data self' = data self /\
  data_bounds self' = b /\
  setattr_data cls (data self) self' = (self', Return tt).
Proof.
  intros Hall self'. subst self'.
  rewrite setattr_data_bounds_stores. cbn [fst].
  repeat (split; [reflexivity|]).
  destruct (class_assignment_outcome cls (data self)
              (put data_bounds_trait b self))
    as [(_ & _ & E) | [(_ & Hdiff & _) | (p & Hfirst & _)]].
  - exact E.
  - exfalso. apply Hdiff. reflexivity.
  - exfalso. eapply first_offending_not_all; eassumption.
Qed.

Lemma overwritten_bounds_are_not_restored_witness :
  let self := fst (setattr_data HeatmapClass example_data __init__) in
  let self' := fst (setattr_data_bounds [] self) in
  Forall (fun p => checks HeatmapClass p = true) (data self) /\
  data self' = example_data /\
  data_bounds self' = [] /\
  setattr_data HeatmapClass example_data self' = (self', Return tt).
Proof.
  intros self self'.
  assert (Hall : Forall (fun p => checks HeatmapClass p = true) (data self)).
  { repeat constructor. }
  split; [exact Hall|].
  exact (proj2 (overwritten_bounds_are_not_restored HeatmapClass self []
                  Hall)).
Defined.

(** X11. A [WeightedHeatmap] validates a list exactly when a [Heatmap]
    validates the list of the points cut to their first two components;
    assigned to layers built without arguments, the two lists both return
    or both raise, and leave the same [data_bounds]. *)
Theorem weighted_heatmap_is_heatmap_on_first_two (value : list tuple)
    (self : layer) :
  (WeightedHeatmap._validate_data self {| value := value |} = Return value
   <-> Heatmap._validate_data self {| value := map (firstn 2) value |}
       = Return (map (firstn 2) value))
  /\ (snd (WeightedHeatmap.setattr_data value __init__) = Return tt
      <-> snd (Heatmap.setattr_data (map (firstn 2) value) __init__)
          = Return tt)
  /\ data_bounds (fst (WeightedHeatmap.setattr_data value __init__))
     = data_bounds (fst (Heatmap.setattr_data (map (firstn 2) value)
                           __init__)).
Proof.
  assert (Hvalid :
    Forall (fun p => checks WeightedHeatmapClass p = true) value
    <-> Forall (fun p => checks HeatmapClass p = true)
               (map (firstn 2) value)).
  { rewrite Forall_map. reflexivity. }
  split.
  { rewrite (class_validate_data WeightedHeatmapClass self value).
    rewrite (class_validate_data HeatmapClass self (map (firstn 2) value)).
    exact Hvalid. }
  change (WeightedHeatmap.setattr_data value)
    with (setattr_data WeightedHeatmapClass value).
  change (Heatmap.setattr_data (map (firstn 2) value))
    with (setattr_data HeatmapClass (map (firstn 2) value)).
  destruct (class_assignment_outcome WeightedHeatmapClass value __init__)
    as [(Hw & Hsame & ->) | [(Hw & Hdiff & ->) | (p & Hfirst & ->)]];
  destruct (class_assignment_outcome HeatmapClass (map (firstn 2) value)
              __init__)
    as [(Hh & Hsame' & ->) | [(Hh & Hdiff' & ->) | (p' & Hfirst' & ->)]];
    try (exfalso; eapply first_offending_not_all; [eassumption|];
         apply Hvalid; assumption);
    try (split; [simpl; tauto | reflexivity]).
  - exfalso. apply Hdiff'. simpl in Hsame. now rewrite <- Hsame.
  - exfalso. apply Hdiff. simpl in Hsame'. simpl.
    destruct value; [reflexivity | discriminate].
  - rewrite set_bounds_firstn.
    destruct (set_bounds_independent value (put data_trait value __init__)
                (put data_trait (map (firstn 2) value) __init__))
      as (Hsnd & Hok & Hfst).
    destruct (set_bounds_independent value
                (put data_trait (map (firstn 2) value) __init__)
                (put data_trait value __init__))
      as (_ & _ & Hfst').
    split; [rewrite Hsnd; tauto|].
    destruct (snd (set_bounds value (put data_trait value __init__)))
      as [[]|e] eqn:E.
    + now apply Hok.
    + rewrite (Hfst e eq_refl), (Hfst' e (eq_sym Hsnd)). reflexivity.
  - split; [split; discriminate | reflexivity].
Qed.

(** ** Invariants of a layer *)

Ltac option_frame t v self :=
  destruct (option_assignment_frame t
              (fun _ _ => eq_refl) (fun _ _ => eq_refl) v self)
    as [?Hdata ?Hbounds].

(** X12. Every point a layer holds passes the test of its class: a layer that
    has only gone through assignments to [data] and to the option fields
    never holds an invalid point, whether the assignments returned or
    raised. *)
Theorem layer_data_stays_valid (cls : layer_class) (self : layer) :
  reachable (setattr_data cls) self ->
  Forall (fun p => checks cls p = true) (data self).
Proof.
  induction 1 as [|value self _ IH|v self _ IH|v self _ IH|v self _ IH
                  |v self _ IH|v self _ IH].
  - constructor.
  - destruct (class_assignment_outcome cls value self)
      as [(_ & _ & ->) | [(Hall & _ & ->) | (p & _ & ->)]];
      try exact IH.
    rewrite set_bounds_keeps_data. exact Hall.
  - option_frame max_intensity_trait v self.
    unfold setattr_max_intensity. now rewrite Hdata.
  - option_frame point_radius_trait v self.
    unfold setattr_point_radius. now rewrite Hdata.
  - option_frame dissipating_trait v self.
    unfold setattr_dissipating. now rewrite Hdata.
  - option_frame opacity_trait v self.
    unfold setattr_opacity. now rewrite Hdata.
  - option_frame gradient_trait v self.
    unfold setattr_gradient. now rewrite Hdata.
Qed.

Lemma layer_data_stays_valid_witness :
  Forall (fun p => checks HeatmapClass p = true)
    (data (fst (setattr_data HeatmapClass
                  [ [num 46.1; num 5.2]; [num 200; num 0] ]
                  (fst (setattr_data HeatmapClass example_data
                          __init__))))).
Proof.
  apply layer_data_stays_valid.
  apply reach_data, reach_data, reach_init.
Defined.

(** X13. [data_bounds] of a layer that has only gone through assignments to
    [data] and to the option fields is either the empty list it started
    with or a list of exactly two pairs. *)
Theorem layer_bounds_shape (cls : layer_class) (self : layer) :
  reachable (setattr_data cls) self ->
  data_bounds self = [] \/
  exists min_latitude min_longitude max_latitude max_longitude,
    data_bounds self
    = [ [min_latitude; min_longitude]; [max_latitude; max_longitude] ].
Proof.
  induction 1 as [|value self _ IH|v self _ IH|v self _ IH|v self _ IH
                  |v self _ IH|v self _ IH].
  - left. reflexivity.
  - destruct (class_assignment_outcome cls value self)
      as [(_ & _ & ->) | [(Hall & _ & ->) | (p & _ & ->)]];
      try exact IH.
    destruct (set_bounds_outcome value (put data_trait value self))
      as [(b & Hb & ->) | (_ & [-> | ->])]; try exact IH.
    right.
    destruct Hb as (l1 & l2 & a & b' & c & d & _ & _ & _ & _ & ->).
    simpl. eauto.
  - option_frame max_intensity_trait v self.
    unfold setattr_max_intensity. now rewrite Hbounds.
  - option_frame point_radius_trait v self.
    unfold setattr_point_radius. now rewrite Hbounds.
  - option_frame dissipating_trait v self.
    unfold setattr_dissipating. now rewrite Hbounds.
  - option_frame opacity_trait v self.
    unfold setattr_opacity. now rewrite Hbounds.
  - option_frame gradient_trait v self.
    unfold setattr_gradient. now rewrite Hbounds.
Qed.

Lemma layer_bounds_shape_witness :
  let self := fst (setattr_opacity (Some (num 0.5))
                     (fst (setattr_data WeightedHeatmapClass
                             example_weighted_data __init__))) in
  data_bounds self = [] \/
  exists min_latitude min_longitude max_latitude max_longitude,
    data_bounds self
    = [ [min_latitude; min_longitude]; [max_latitude; max_longitude] ].
Proof.
  intros self.
  apply (layer_bounds_shape WeightedHeatmapClass).
  apply reach_opacity, reach_data, reach_init.
Defined.

(** X14. On a layer that has only gone through assignments to [data] and to
    the option fields, and that holds data, [data_bounds] is what
    [set_bounds] computes from the data it holds: running [set_bounds] on
    it again returns and changes nothing. *)
Theorem layer_bounds_stay_current (cls : layer_class) (self : layer) :
  reachable (setattr_data cls) self ->
  data self <> [] ->
  set_bounds (data self) self = (self, Return tt).
Proof.
  intros Hreach Hne.
  destruct (class_reachable_coherent cls self Hreach) as [E | Hb];
    [contradiction|].
  destruct (set_bounds_outcome (data self) self)
    as [(b & Hb' & ->) | (Hnone & _)].
  - rewrite (bounds_of_unique _ _ _ Hb' Hb). destruct self; reflexivity.
  - exfalso. apply Hnone. eauto.
Qed.

Lemma layer_bounds_stay_current_witness :
  let self := fst (setattr_data HeatmapClass
                     [ [num 46.1; num 5.2]; [num 200; num 0] ]
                     (fst (setattr_data HeatmapClass example_data
                             __init__))) in
  data self <> [] /\
  set_bounds (data self) self = (self, Return tt).
Proof.
  intros self.
  assert (Hne : data self <> []) by discriminate.
  split; [exact Hne|].
  apply (layer_bounds_stay_current HeatmapClass); [|exact Hne].
  apply reach_data, reach_data, reach_init.
Defined.
